(** * namaste: the disease-code lookup service of [app.py]

    A shallow embedding of the Flask handlers of [src/app.py] and the
    properties of its name-resolution core.

    Conventions of the embedding.
    - A Python [str] is a [string]; each character is read as a code point
      below 256, which fixes what [str.strip] and [str.lower] do.
    - A Python [dict] is an association list in insertion order without
      repeated keys ([dict_wf]); the order is the one [dict.keys()] and
      [dict.items()] iterate in.
    - The module-level dict [diseases] is the state.  A handler is a
      computation in the monad [App]: it reads and writes that state and
      either returns a value or raises a Python exception.
    - A score is a rational number; the scorer of the fuzzy search belongs to
      the [rapidfuzz] library and is a parameter of the development. *)

From Stdlib Require Import List String Ascii Bool Arith ZArith QArith Lia Sorted.
Import ListNotations.

Local Close Scope Q_scope.
Local Open Scope string_scope.
Local Open Scope list_scope.
Local Open Scope nat_scope.

(** ** Python strings *)

Module PyStr.

(** [c.isspace()] for a code point below 256: TAB..CR, FS..US, SPACE,
    NEL (0x85) and NBSP (0xA0). *)
Definition isspace (c : ascii) : bool :=
  let n := nat_of_ascii c in
  ((9 <=? n) && (n <=? 13)) || ((28 <=? n) && (n <=? 32))
  || (n =? 133) || (n =? 160).

(** [c.lower()] for a code point below 256: A..Z and the Latin-1 capitals
    0xC0..0xDE (the multiplication sign 0xD7 apart) move up by 32. *)
Definition lower_char (c : ascii) : ascii :=
  let n := nat_of_ascii c in
  if ((65 <=? n) && (n <=? 90))
     || ((192 <=? n) && (n <=? 222) && negb (n =? 215))
  then ascii_of_nat (n + 32) else c.

Fixpoint lower (s : string) : string :=
  match s with
  | EmptyString => EmptyString
  | String c s' => String (lower_char c) (lower s')
  end.

Fixpoint lstrip (s : string) : string :=
  match s with
  | EmptyString => EmptyString
  | String c s' => if isspace c then lstrip s' else s
  end.

Fixpoint rstrip (s : string) : string :=
  match s with
  | EmptyString => EmptyString
  | String c s' =>
      match rstrip s' with
      | EmptyString => if isspace c then EmptyString else String c EmptyString
      | r => String c r
      end
  end.

(** [s.strip()]: leading and trailing whitespace removed. *)
Definition strip (s : string) : string := rstrip (lstrip s).

(** Truth value of a string: [not s] holds for the empty string only. *)
Definition is_empty (s : string) : bool :=
  match s with EmptyString => true | _ => false end.

(** Every character of [s] is whitespace (the empty string included). *)
Fixpoint blank (s : string) : bool :=
  match s with
  | EmptyString => true
  | String c s' => isspace c && blank s'
  end.

End PyStr.

(** ** Python dicts *)

Section Dict.

Context {V : Type}.

Definition dict := list (string * V).

(** [d.get(k)] / the lookup behind [d[k]] and [k in d]. *)
Fixpoint dict_get (k : string) (d : dict) : option V :=
  match d with
  | [] => None
  | (k', v) :: d' => if String.eqb k k' then Some v else dict_get k d'
  end.

(** [k in d] *)
Definition dict_mem (k : string) (d : dict) : bool :=
  match dict_get k d with Some _ => true | None => false end.

(** [d[k] = v]: an existing key keeps its position, a new key goes last. *)
Fixpoint dict_set (k : string) (v : V) (d : dict) : dict :=
  match d with
  | [] => [(k, v)]
  | (k', v') :: d' =>
      if String.eqb k k' then (k', v) :: d' else (k', v') :: dict_set k v d'
  end.

(** [del d[k]] *)
Fixpoint dict_del (k : string) (d : dict) : dict :=
  match d with
  | [] => []
  | (k', v') :: d' =>
      if String.eqb k k' then d' else (k', v') :: dict_del k d'
  end.

(** [d.keys()], in iteration order. *)
Definition dict_keys (d : dict) : list string := map fst d.

(** Representation invariant: a dict holds each key once. *)
Definition dict_wf (d : dict) : Prop := NoDup (dict_keys d).

End Dict.

Arguments dict V : clear implicits.

(** ** JSON values, as [request.json] yields them and [jsonify] takes them *)

#[warnings="-register-all"]
Inductive json : Type :=
| JNull
| JBool (b : bool)
| JNum (q : Q)
| JStr (s : string)
| JArr (items : list json)
| JObj (fields : dict json).

(** The value of one disease: a dict with the keys ["ICD11"] and ["TM2"]. *)
Definition codes_t := dict json.

(** The module-level [diseases]. *)
Definition catalog := dict codes_t.

Definition diseases0 : catalog :=
  [ ("Asthma", [("ICD11", JStr "CA23"); ("TM2", JStr "TM2-404")]);
    ("Diabetes mellitus", [("ICD11", JStr "5A11"); ("TM2", JStr "TM2-101")]);
    ("Fever", [("ICD11", JStr "MG21"); ("TM2", JStr "TM2-210")]) ].

(** ** The handler monad: state [diseases], Python exceptions *)

Inductive exn : Type :=
| KeyError (k : string)
| TypeError
| AttributeError.

Inductive outcome (A : Type) : Type :=
| Returns (a : A)
| Raises (e : exn).

Arguments Returns {A} a.
Arguments Raises {A} e.

Definition App (A : Type) : Type := catalog -> outcome A * catalog.

Definition ret {A} (a : A) : App A := fun ds => (Returns a, ds).

Definition raise {A} (e : exn) : App A := fun ds => (Raises e, ds).

Definition bind {A B} (m : App A) (k : A -> App B) : App B :=
  fun ds =>
    match m ds with
    | (Returns a, ds') => k a ds'
    | (Raises e, ds') => (Raises e, ds')
    end.

Notation "x <- m ;; k" := (bind m (fun x => k))
  (at level 61, m at next level, right associativity).
Notation "m ;;; k" := (bind m (fun _ => k))
  (at level 61, right associativity).

(** Reading and rebinding the contents of the global [diseases]. *)
Definition get_diseases : App catalog := fun ds => (Returns ds, ds).
Definition put_diseases (ds' : catalog) : App unit := fun _ => (Returns tt, ds').

(** [d[k]] on any dict: [KeyError] when the key is absent. *)
Definition getitem {V} (d : dict V) (k : string) : App V :=
  match dict_get k d with
  | Some v => ret v
  | None => raise (KeyError k)
  end.

(** [disease in diseases] *)
Definition diseases_contains (k : string) : App bool :=
  ds <- get_diseases ;; ret (dict_mem k ds).

(** [diseases[k]] *)
Definition diseases_getitem (k : string) : App codes_t :=
  ds <- get_diseases ;; getitem ds k.

(** [diseases[k][field] = v]: the inner dict is changed in place. *)
Definition diseases_setfield (k field : string) (v : json) : App unit :=
  ds <- get_diseases ;;
  codes <- getitem ds k ;;
  put_diseases (dict_set k (dict_set field v codes) ds).

(** [del diseases[k]] *)
Definition diseases_delitem (k : string) : App unit :=
  ds <- get_diseases ;;
  match dict_get k ds with
  | Some _ => put_diseases (dict_del k ds)
  | None => raise (KeyError k)
  end.

(** ** Responses *)

(** What a view function hands back: the argument of [jsonify] and the HTTP
    status (200 where the source gives none). *)
Definition response := (json * nat)%type.

(** The [OperationOutcome] literal with one issue. *)
Definition operation_outcome (severity code text : string) : json :=
  JObj [ ("resourceType", JStr "OperationOutcome");
         ("issue", JArr [ JObj [ ("severity", JStr severity);
                                 ("code", JStr code);
                                 ("details", JObj [("text", JStr text)]) ] ]) ].

(** The ["code"] member of a [Condition]: the two codings of one disease. *)
Definition coding (name : string) (icd11 tm2 : json) : json :=
  JObj [ ("coding",
          JArr [ JObj [ ("system", JStr "http://id.who.int/icd/release/11");
                        ("code", icd11);
                        ("display", JStr name) ];
                 JObj [ ("system", JStr "http://example.org/tm2");
                        ("code", tm2);
                        ("display", JStr (name ++ " (TM2)")) ] ]) ].

Definition subject : json := JObj [("reference", JStr "Patient/P12345")].

(** [fhir_condition] of the exact branch of [get_code], and the resource of
    one entry of [list_diseases]. *)
Definition fhir_condition (name : string) (icd11 tm2 : json) : json :=
  JObj [ ("resourceType", JStr "Condition");
         ("id", JStr ("cond-" ++ PyStr.lower name));
         ("code", coding name icd11 tm2);
         ("subject", subject) ].

(** [fhir_condition] of the fuzzy branch: the same with a ["note"]. *)
Definition fhir_condition_note (name : string) (icd11 tm2 : json) : json :=
  JObj [ ("resourceType", JStr "Condition");
         ("id", JStr ("cond-" ++ PyStr.lower name));
         ("note", JStr ("Did you mean '" ++ name ++ "'?"));
         ("code", coding name icd11 tm2);
         ("subject", subject) ].

Definition disease_not_found : response :=
  (operation_outcome "error" "not-found" "Disease not found", 404).

(** [request.args.get(name, default)], given the parameter of that name when
    the request has one. *)
Definition args_get (arg : option string) (default : string) : string :=
  match arg with Some s => s | None => default end.

(** ** The fuzzy search *)

Definition Qltb (x y : Q) : bool := negb (Qle_bool y x).

Section Fuzzy.

(** The scorer [process.extractOne] applies by default: it rates a choice
    against the query with a number between 0 and 100. *)
Variable scorer : string -> string -> Q.

(** The scan of [rapidfuzz.process.extractOne] over the choices: a choice
    replaces the kept one only when its score is strictly higher, so of
    several choices with the highest score the earliest is kept.  The
    third component is the position of the choice. *)
Fixpoint extractOne_scan (query : string) (choices : list string)
         (key : nat) (result : option (string * Q * nat))
  : option (string * Q * nat) :=
  match choices with
  | [] => result
  | choice :: rest =>
      let score := scorer query choice in
      let result' :=
        match result with
        | None => Some (choice, score, key)
        | Some (_, best, _) =>
            if Qltb best score then Some (choice, score, key) else result
        end in
      extractOne_scan query rest (S key) result'
  end.

(** [process.extractOne(query, choices)]: [None] when there is no choice. *)
Definition extractOne (query : string) (choices : list string)
  : option (string * Q * nat) :=
  extractOne_scan query choices 0 None.

(** [a, b, c = r]: unpacking [None] is a [TypeError]. *)
Definition unpack3 {A} (r : option A) : App A :=
  match r with
  | Some t => ret t
  | None => raise TypeError
  end.

(** ** [get_code]: GET /get_code?disease=...

    [arg] is the raw value of the query parameter, [None] when the request
    has none. *)
Definition get_code (arg : option string) : App response :=
  let disease := PyStr.strip (args_get arg "") in
  if PyStr.is_empty disease then
    ret (operation_outcome "error" "invalid" "No disease provided", 400)
  else
    found <- diseases_contains disease ;;
    if found : bool then
      codes <- diseases_getitem disease ;;
      icd11 <- getitem codes "ICD11" ;;
      tm2 <- getitem codes "TM2" ;;
      ret (fhir_condition disease icd11 tm2, 200)
    else
      ds <- get_diseases ;;
      r <- unpack3 (extractOne disease (dict_keys ds)) ;;
      let '(match_, score, _) := r in
      if Qltb (70 # 1) score then
        codes <- diseases_getitem match_ ;;
        icd11 <- getitem codes "ICD11" ;;
        tm2 <- getitem codes "TM2" ;;
        ret (fhir_condition_note match_ icd11 tm2, 200)
      else
        ret disease_not_found.

End Fuzzy.

(** ** [list_diseases]: GET /list_diseases *)

Fixpoint list_entries (items : catalog) : App (list json) :=
  match items with
  | [] => ret []
  | (disease, codes) :: rest =>
      icd11 <- getitem codes "ICD11" ;;
      tm2 <- getitem codes "TM2" ;;
      entries <- list_entries rest ;;
      ret (JObj [("resource", fhir_condition disease icd11 tm2)] :: entries)
  end.

Definition list_diseases : App response :=
  ds <- get_diseases ;;
  entries <- list_entries ds ;;
  ret (JObj [ ("resourceType", JStr "Bundle");
              ("type", JStr "collection");
              ("entry", JArr entries) ], 200).

(** ** [update_disease]: PUT /update/<disease> *)

(** [data.get]: only a JSON object has the method; [data.get(k, default)]
    then is the member [k], or [default] when there is none. *)
Definition data_get (data : json) : App (string -> json -> json) :=
  match data with
  | JObj fields =>
      ret (fun k default =>
             match dict_get k fields with Some v => v | None => default end)
  | _ => raise AttributeError
  end.

(** [diseases[disease][field] = data.get(field, diseases[disease][field])] *)
Definition update_field (disease field : string) (data : json) : App unit :=
  get <- data_get data ;;
  codes <- diseases_getitem disease ;;
  old <- getitem codes field ;;
  diseases_setfield disease field (get field old).

Definition update_disease (disease : string) (data : json) : App response :=
  found <- diseases_contains disease ;;
  if found : bool then
    update_field disease "ICD11" data ;;;
    update_field disease "TM2" data ;;;
    ret (operation_outcome "information" "updated"
           (disease ++ " updated successfully"), 200)
  else
    ret disease_not_found.

(** ** [delete_disease]: DELETE /delete/<disease> *)

Definition delete_disease (disease : string) : App response :=
  found <- diseases_contains disease ;;
  if found : bool then
    diseases_delitem disease ;;;
    ret (operation_outcome "information" "deleted"
           (disease ++ " deleted successfully"), 200)
  else
    ret disease_not_found.

(** ** The service as a state machine *)

Inductive request : Type :=
| GetCode (arg : option string)
| ListDiseases
| UpdateDisease (disease : string) (data : json)
| DeleteDisease (disease : string).

Definition handle (scorer : string -> string -> Q) (r : request)
  : App response :=
  match r with
  | GetCode arg => get_code scorer arg
  | ListDiseases => list_diseases
  | UpdateDisease disease data => update_disease disease data
  | DeleteDisease disease => delete_disease disease
  end.

(** The contents of [diseases] after a sequence of requests; a request that
    raises leaves what it had written so far. *)
Fixpoint run (scorer : string -> string -> Q) (rs : list request)
         (ds : catalog) : catalog :=
  match rs with
  | [] => ds
  | r :: rs' => run scorer rs' (snd (handle scorer r ds))
  end.

(** ** A concrete scorer for the closed examples

    The normalised Indel similarity, the measure behind [rapidfuzz]'s basic
    ratio: 100 * 2 * lcs / (len1 + len2), and 100 for two empty strings.  It
    is not part of [app.py]; the examples below plug it in for the scorer
    parameter. *)

Module Indel.

Fixpoint lcs (a b : list ascii) : nat :=
  match a with
  | [] => 0
  | x :: a' =>
      (fix scan (b : list ascii) : nat :=
         match b with
         | [] => 0
         | y :: b' =>
             if Ascii.eqb x y then S (lcs a' b')
             else Nat.max (lcs a' b) (scan b')
         end) b
  end.

Definition ratio (s1 s2 : string) : Q :=
  let a := list_ascii_of_string s1 in
  let b := list_ascii_of_string s2 in
  match (List.length a + List.length b)%nat with
  | O => 100 # 1
  | S n => Z.of_nat (200 * lcs a b)%nat # Pos.of_succ_nat n
  end.

End Indel.

(** The catalog used against the lexicographic reading of the tie-break:
    two names, the lexicographically larger one inserted first. *)
Definition tied_catalog : catalog :=
  [ ("abd", [("ICD11", JStr "D1"); ("TM2", JStr "TM2-1")]);
    ("abc", [("ICD11", JStr "C1"); ("TM2", JStr "TM2-2")]) ].

(** ** Predicates on the catalog *)

(** [data.get(field, old)] for a JSON object. *)
Definition supplied (fields : dict json) (field : string) (old : json) : json :=
  match dict_get field fields with Some v => v | None => old end.

(** Both codes of a disease are there. *)
Definition codes_ok (codes : codes_t) : bool :=
  dict_mem "ICD11" codes && dict_mem "TM2" codes.

(** No disease of the catalog lacks a code. *)
Definition catalog_ok (ds : catalog) : bool :=
  forallb (fun item => codes_ok (snd item)) ds.

(** The names come in strictly increasing lexicographic order. *)
Definition names_sorted (ds : catalog) : Prop :=
  StronglySorted (fun a b => String.ltb a b = true) (dict_keys ds).

(** A property of the catalog that survives setting a field of an existing
    disease and deleting a disease. *)
Record stable (P : catalog -> Prop) : Prop := {
  stable_set : forall k field v codes ds,
      P ds -> dict_get k ds = Some codes ->
      P (dict_set k (dict_set field v codes) ds);
  stable_del : forall k ds, P ds -> P (dict_del k ds)
}.

(** The answer of [get_code] for the disease [name], as a function of the
    catalog: the [Condition] (with the note on the fuzzy branch), or the
    [KeyError] of the lookup that fails. *)
Definition condition_of (note : bool) (name : string) (ds : catalog)
  : outcome response :=
  match dict_get name ds with
  | None => Raises (KeyError name)
  | Some codes =>
      match dict_get "ICD11" codes with
      | None => Raises (KeyError "ICD11")
      | Some icd11 =>
          match dict_get "TM2" codes with
          | None => Raises (KeyError "TM2")
          | Some tm2 =>
              Returns ((if note then fhir_condition_note name icd11 tm2
                        else fhir_condition name icd11 tm2), 200)
          end
      end
  end.

(** The body of a request is a JSON object (a Python dict). *)
Definition is_object (data : json) : bool :=
  match data with JObj _ => true | _ => false end.

(** The catalog holds [name] with the codes [icd11] and [tm2]. *)
Definition stored (ds : catalog) (name : string) (icd11 tm2 : json) : Prop :=
  exists codes,
    dict_get name ds = Some codes
    /\ dict_get "ICD11" codes = Some icd11
    /\ dict_get "TM2" codes = Some tm2.

(** The entry [list_diseases] appends for one item of the catalog whose two
    codes are there. *)
Definition bundle_entry (item : string * codes_t) : json :=
  JObj [("resource",
         fhir_condition (fst item) (supplied (snd item) "ICD11" JNull)
                        (supplied (snd item) "TM2" JNull))].

(** The [Bundle] literal of [list_diseases] around its entries. *)
Definition bundle (entries : list json) : json :=
  JObj [ ("resourceType", JStr "Bundle");
         ("type", JStr "collection");
         ("entry", JArr entries) ].

(** The answer of a successful update and of a successful delete. *)
Definition updated_ok (name : string) : response :=
  (operation_outcome "information" "updated" (name ++ " updated successfully"),
   200).

Definition deleted_ok (name : string) : response :=
  (operation_outcome "information" "deleted" (name ++ " deleted successfully"),
   200).

(** The answer to a blank query. *)
Definition invalid_query : response :=
  (operation_outcome "error" "invalid" "No disease provided", 400).

(** * Properties *)

(** ** Comparison of scores *)

Lemma Qltb_lt (x y : Q) : Qltb x y = true <-> (x < y)%Q.
Proof.
  unfold Qltb. rewrite negb_true_iff. split.
  - intros H. apply Qnot_le_lt. intros Hle.
    apply Qle_bool_iff in Hle. congruence.
  - intros H. destruct (Qle_bool y x) eqn:E; [|reflexivity].
    apply Qle_bool_iff in E. exfalso. exact (Qlt_not_le _ _ H E).
Qed.

Lemma Qltb_ge (x y : Q) : Qltb x y = false <-> (y <= x)%Q.
Proof.
  unfold Qltb. rewrite negb_false_iff. apply Qle_bool_iff.
Qed.

(** ** Strings *)

Lemma lstrip_blank (s : string) : PyStr.blank s = true -> PyStr.lstrip s = "".
Proof.
  induction s as [|c s IH]; simpl; [reflexivity|].
  intros H. apply andb_true_iff in H as [Hc Hs]. rewrite Hc. auto.
Qed.

Lemma strip_blank (s : string) : PyStr.blank s = true -> PyStr.strip s = "".
Proof.
  intros H. unfold PyStr.strip. rewrite (lstrip_blank s H). reflexivity.
Qed.

Lemma is_empty_false (s : string) : s <> "" -> PyStr.is_empty s = false.
Proof. destruct s; [congruence | reflexivity]. Qed.

(** ** Dicts *)

Section DictFacts.

Context {V : Type}.
Implicit Types (d : dict V) (k : string) (v : V).

Lemma dict_get_In k d v : dict_get k d = Some v -> In (k, v) d.
Proof.
  induction d as [|[k' v'] d IH]; simpl; [discriminate|].
  destruct (String.eqb_spec k k') as [->|Hne].
  - intros [= ->]. now left.
  - intros H. right. auto.
Qed.

Lemma dict_get_keys k d v : dict_get k d = Some v -> In k (dict_keys d).
Proof.
  intros H. apply dict_get_In in H.
  unfold dict_keys. apply in_map_iff. now exists (k, v).
Qed.

Lemma dict_keys_get k d : In k (dict_keys d) -> exists v, dict_get k d = Some v.
Proof.
  induction d as [|[k' v'] d IH]; simpl; [tauto|].
  intros H. destruct (String.eqb_spec k k') as [->|Hne]; [eauto|].
  destruct H as [H|H]; [congruence | auto].
Qed.

Lemma dict_get_None k d : dict_get k d = None -> ~ In k (dict_keys d).
Proof.
  intros H Hin. apply dict_keys_get in Hin as [v Hv]. congruence.
Qed.

Lemma dict_get_set_same k v d : dict_get k (dict_set k v d) = Some v.
Proof.
  induction d as [|[k' v'] d IH]; simpl.
  - now rewrite String.eqb_refl.
  - destruct (String.eqb_spec k k') as [->|Hne]; simpl.
    + now rewrite String.eqb_refl.
    + apply String.eqb_neq in Hne. now rewrite Hne.
Qed.

Lemma dict_get_set_other k k0 v d :
  k0 <> k -> dict_get k0 (dict_set k v d) = dict_get k0 d.
Proof.
  intros Hne. induction d as [|[k' v'] d IH]; simpl.
  - apply String.eqb_neq in Hne. now rewrite Hne.
  - destruct (String.eqb_spec k k') as [->|Hk]; simpl.
    + apply String.eqb_neq in Hne. now rewrite Hne.
    + now rewrite IH.
Qed.

Lemma dict_keys_set k v d :
  dict_mem k d = true -> dict_keys (dict_set k v d) = dict_keys d.
Proof.
  unfold dict_mem. induction d as [|[k' v'] d IH]; simpl; [discriminate|].
  destruct (String.eqb_spec k k') as [->|Hk]; simpl; [reflexivity|].
  intros H. now rewrite IH.
Qed.

Lemma dict_mem_set k k0 v d :
  dict_mem k0 (dict_set k v d) = (String.eqb k0 k || dict_mem k0 d)%bool.
Proof.
  unfold dict_mem. destruct (String.eqb_spec k0 k) as [->|Hne]; simpl.
  - now rewrite dict_get_set_same.
  - now rewrite dict_get_set_other.
Qed.

Lemma dict_get_del_other k k0 d :
  k0 <> k -> dict_get k0 (dict_del k d) = dict_get k0 d.
Proof.
  intros Hne. induction d as [|[k' v'] d IH]; simpl; [reflexivity|].
  destruct (String.eqb_spec k k') as [->|Hk]; simpl.
  - apply String.eqb_neq in Hne. now rewrite Hne.
  - now rewrite IH.
Qed.

Lemma dict_get_del_same k d : dict_wf d -> dict_get k (dict_del k d) = None.
Proof.
  unfold dict_wf. induction d as [|[k' v'] d IH]; simpl; [reflexivity|].
  intros Hwf. inversion Hwf as [|? ? Hnotin Hwf']; subst.
  destruct (String.eqb_spec k k') as [->|Hk]; simpl.
  - destruct (dict_get k' d) eqn:E; [|reflexivity].
    apply dict_get_keys in E. contradiction.
  - apply String.eqb_neq in Hk. rewrite Hk. auto.
Qed.

Lemma dict_keys_del_incl k d : incl (dict_keys (dict_del k d)) (dict_keys d).
Proof.
  induction d as [|[k' v'] d IH]; simpl; [apply incl_refl|].
  destruct (String.eqb k k'); simpl.
  - apply incl_tl, incl_refl.
  - intros x [Hx|Hx]; [now left | right; now apply IH].
Qed.

Lemma dict_wf_del k d : dict_wf d -> dict_wf (dict_del k d).
Proof.
  unfold dict_wf. induction d as [|[k' v'] d IH]; simpl; [auto|].
  intros Hwf. inversion Hwf as [|? ? Hnotin Hwf']; subst.
  destruct (String.eqb k k'); simpl; [assumption|].
  constructor; [|auto].
  intros Hin. apply Hnotin. exact (dict_keys_del_incl k d _ Hin).
Qed.

Lemma dict_wf_set k v d :
  dict_mem k d = true -> dict_wf d -> dict_wf (dict_set k v d).
Proof.
  intros Hmem. unfold dict_wf. now rewrite dict_keys_set.
Qed.

End DictFacts.

(** ** Catalog invariants *)

Lemma codes_ok_get (codes : codes_t) :
  codes_ok codes = true ->
  exists icd11 tm2,
    dict_get "ICD11" codes = Some icd11 /\ dict_get "TM2" codes = Some tm2.
Proof.
  unfold codes_ok, dict_mem. intros H. apply andb_true_iff in H as [H1 H2].
  destruct (dict_get "ICD11" codes) as [i|]; [|discriminate].
  destruct (dict_get "TM2" codes) as [t|]; [|discriminate].
  now exists i, t.
Qed.

Lemma catalog_ok_get (ds : catalog) (k : string) (codes : codes_t) :
  catalog_ok ds = true -> dict_get k ds = Some codes -> codes_ok codes = true.
Proof.
  unfold catalog_ok. intros Hok Hget.
  rewrite forallb_forall in Hok. exact (Hok _ (dict_get_In _ _ _ Hget)).
Qed.

Lemma codes_ok_set (field : string) (v : json) (codes : codes_t) :
  codes_ok codes = true -> codes_ok (dict_set field v codes) = true.
Proof.
  unfold codes_ok. rewrite !dict_mem_set. intros H.
  apply andb_true_iff in H as [-> ->]. now rewrite !orb_true_r.
Qed.

Lemma catalog_ok_set (k : string) (codes : codes_t) (ds : catalog) :
  catalog_ok ds = true -> codes_ok codes = true ->
  catalog_ok (dict_set k codes ds) = true.
Proof.
  unfold catalog_ok. intros Hds Hc.
  induction ds as [|[k' c'] ds IH]; simpl in *.
  - now rewrite Hc.
  - apply andb_true_iff in Hds as [H1 H2].
    destruct (String.eqb k k'); simpl.
    + now rewrite Hc, H2.
    + now rewrite H1, IH.
Qed.

Lemma catalog_ok_del (k : string) (ds : catalog) :
  catalog_ok ds = true -> catalog_ok (dict_del k ds) = true.
Proof.
  unfold catalog_ok. induction ds as [|[k' c'] ds IH]; simpl; [auto|].
  intros H. apply andb_true_iff in H as [H1 H2].
  destruct (String.eqb k k'); simpl; [assumption|]. now rewrite H1, IH.
Qed.

Lemma names_sorted_del (k : string) (ds : catalog) :
  names_sorted ds -> names_sorted (dict_del k ds).
Proof.
  unfold names_sorted. induction ds as [|[k' c'] ds IH]; simpl; [auto|].
  intros H. apply StronglySorted_inv in H as [Hs Hall].
  destruct (String.eqb k k'); simpl; [assumption|].
  constructor; [auto|].
  rewrite Forall_forall in *. intros x Hx.
  apply Hall. exact (dict_keys_del_incl k ds _ Hx).
Qed.

(** ** The monad: what each primitive does to the state *)

Lemma bind_returns {A B} (m : App A) (k : A -> App B) ds a ds' :
  m ds = (Returns a, ds') -> bind m k ds = k a ds'.
Proof. unfold bind. now intros ->. Qed.

Lemma bind_raises {A B} (m : App A) (k : A -> App B) ds e ds' :
  m ds = (Raises e, ds') -> bind m k ds = (Raises e, ds').
Proof. unfold bind. now intros ->. Qed.


Lemma update_field_stable (P : catalog -> Prop) (HP : stable P)
      (disease field : string) (data : json) (ds : catalog) :
  P ds -> P (snd (update_field disease field data ds)).
Proof.
  intros H. unfold update_field, data_get, diseases_getitem, diseases_setfield,
    getitem, get_diseases, put_diseases, bind, ret, raise.
  destruct data; simpl; try assumption.
  destruct (dict_get disease ds) as [codes|] eqn:E; simpl; [|assumption].
  destruct (dict_get field codes) as [old|]; simpl; [|assumption].
  rewrite E. simpl. now apply (stable_set P HP).
Qed.

Lemma update_disease_stable (P : catalog -> Prop) (HP : stable P)
      (disease : string) (data : json) (ds : catalog) :
  P ds -> P (snd (update_disease disease data ds)).
Proof.
  intros H. unfold update_disease, diseases_contains.
  unfold bind at 1 2. unfold get_diseases, ret at 1.
  destruct (dict_mem disease ds); [|exact H].
  pose proof (update_field_stable P HP disease "ICD11" data ds H) as H1.
  unfold bind at 1.
  destruct (update_field disease "ICD11" data ds) as [[[]|e] ds1]; simpl in *;
    [|exact H1].
  pose proof (update_field_stable P HP disease "TM2" data ds1 H1) as H2.
  unfold bind.
  destruct (update_field disease "TM2" data ds1) as [[[]|e] ds2]; simpl in *;
    exact H2.
Qed.

Lemma delete_disease_stable (P : catalog -> Prop) (HP : stable P)
      (disease : string) (ds : catalog) :
  P ds -> P (snd (delete_disease disease ds)).
Proof.
  intros H. unfold delete_disease, diseases_contains, diseases_delitem,
    get_diseases, put_diseases, bind, ret, raise, dict_mem.
  destruct (dict_get disease ds) eqn:E; cbn; [|exact H].
  rewrite E. cbn. now apply (stable_del P HP).
Qed.

(** ** The scan of [extractOne] *)

Section ScanFacts.

Variable scorer : string -> string -> Q.
Variable query : string.

Let below (s : Q) (n : string) : Prop := (scorer query n < s)%Q.
Let upto (s : Q) (n : string) : Prop := (scorer query n <= s)%Q.

Lemma scan_kept (choices : list string) :
  forall key m0 s0 k0,
    (extractOne_scan scorer query choices key (Some (m0, s0, k0))
     = Some (m0, s0, k0)
     /\ Forall (upto s0) choices)
    \/ (exists l1 m l2,
           choices = l1 ++ m :: l2
           /\ extractOne_scan scorer query choices key (Some (m0, s0, k0))
              = Some (m, scorer query m, key + List.length l1)
           /\ (s0 < scorer query m)%Q
           /\ Forall (below (scorer query m)) l1
           /\ Forall (upto (scorer query m)) l2).
Proof.
  induction choices as [|c rest IH]; intros key m0 s0 k0; simpl.
  - left. split; [reflexivity | constructor].
  - destruct (Qltb s0 (scorer query c)) eqn:E.
    + apply Qltb_lt in E. right.
      destruct (IH (S key) c (scorer query c) key)
        as [[Hkeep Hall] | (l1 & m & l2 & -> & Hres & Hlt & H1 & H2)].
      * exists [], c, rest. simpl. rewrite Nat.add_0_r.
        repeat split; auto.
      * exists (c :: l1), m, l2. simpl.
        rewrite Hres, <- plus_n_Sm.
        repeat split; auto;
          solve [exact (Qlt_trans _ _ _ E Hlt) | constructor; assumption].
    + apply Qltb_ge in E.
      destruct (IH (S key) m0 s0 k0)
        as [[Hkeep Hall] | (l1 & m & l2 & -> & Hres & Hlt & H1 & H2)].
      * left. split; [assumption | constructor; assumption].
      * right. exists (c :: l1), m, l2. simpl.
        rewrite Hres, <- plus_n_Sm.
        repeat split; auto.
        all: constructor; [exact (Qle_lt_trans _ _ _ E Hlt) | assumption].
Qed.

(** Of a non-empty list of choices [extractOne] returns a choice with the
    highest score, its score and its position; every earlier choice scores
    strictly less. *)
Lemma extractOne_first_best (choices : list string) :
  choices <> [] ->
  exists l1 m l2,
    choices = l1 ++ m :: l2
    /\ extractOne scorer query choices
       = Some (m, scorer query m, List.length l1)
    /\ Forall (fun n => (scorer query n < scorer query m)%Q) l1
    /\ Forall (fun n => (scorer query n <= scorer query m)%Q) l2.
Proof.
  destruct choices as [|c rest]; [congruence|]. intros _.
  unfold extractOne. simpl.
  destruct (scan_kept rest 1 c (scorer query c) 0)
    as [[Hkeep Hall] | (l1 & m & l2 & -> & Hres & Hlt & H1 & H2)].
  - exists [], c, rest. simpl. repeat split; auto.
  - exists (c :: l1), m, l2. simpl. rewrite Hres.
    repeat split; auto; constructor; assumption.
Qed.

Lemma extractOne_nil : extractOne scorer query [] = None.
Proof. reflexivity. Qed.

End ScanFacts.

(** ** [get_code], branch by branch *)

Section GetCodeFacts.

Variable scorer : string -> string -> Q.


Lemma get_code_eq (arg : option string) (ds : catalog) :
  get_code scorer arg ds =
  (let disease := PyStr.strip (args_get arg "") in
   if PyStr.is_empty disease then
     Returns (operation_outcome "error" "invalid" "No disease provided", 400)
   else if dict_mem disease ds then condition_of false disease ds
   else match extractOne scorer disease (dict_keys ds) with
        | None => Raises TypeError
        | Some (m, score, _) =>
            if Qltb (70 # 1) score then condition_of true m ds
            else Returns disease_not_found
        end,
   ds).
Proof.
  unfold get_code. cbv zeta.
  set (disease := PyStr.strip _).
  destruct (PyStr.is_empty disease); [reflexivity|].
  unfold diseases_contains, diseases_getitem, get_diseases, getitem,
    unpack3, condition_of, bind, ret, raise.
  destruct (dict_mem disease ds) eqn:Hmem; cbn.
  - destruct (dict_get disease ds) as [codes|] eqn:E; cbn; [|reflexivity].
    destruct (dict_get "ICD11" codes) as [icd11|]; cbn; [|reflexivity].
    destruct (dict_get "TM2" codes) as [tm2|]; cbn; reflexivity.
  - destruct (extractOne scorer disease (dict_keys ds)) as [[[m score] i]|];
      cbn; [|reflexivity].
    destruct (Qltb (70 # 1) score); cbn; [|reflexivity].
    destruct (dict_get m ds) as [codes|] eqn:E; cbn; [|reflexivity].
    destruct (dict_get "ICD11" codes) as [icd11|]; cbn; [|reflexivity].
    destruct (dict_get "TM2" codes) as [tm2|]; cbn; reflexivity.
Qed.

Lemma get_code_state (arg : option string) (ds : catalog) :
  snd (get_code scorer arg ds) = ds.
Proof. rewrite get_code_eq. reflexivity. Qed.

Lemma condition_of_ok (note : bool) (name : string) (ds : catalog) :
  catalog_ok ds = true -> In name (dict_keys ds) ->
  exists codes icd11 tm2,
    dict_get name ds = Some codes
    /\ dict_get "ICD11" codes = Some icd11
    /\ dict_get "TM2" codes = Some tm2
    /\ condition_of note name ds
       = Returns ((if note then fhir_condition_note name icd11 tm2
                   else fhir_condition name icd11 tm2), 200).
Proof.
  intros Hok Hin. apply dict_keys_get in Hin as [codes Hc].
  destruct (codes_ok_get codes (catalog_ok_get _ _ _ Hok Hc))
    as (icd11 & tm2 & Hi & Ht).
  exists codes, icd11, tm2. unfold condition_of.
  rewrite Hc, Hi, Ht. auto.
Qed.

End GetCodeFacts.

Lemma list_entries_state (items ds : catalog) :
  snd (list_entries items ds) = ds.
Proof.
  induction items as [|[disease codes] rest IH]; simpl; [reflexivity|].
  unfold getitem, bind, ret, raise in *.
  destruct (dict_get "ICD11" codes); cbn; [|reflexivity].
  destruct (dict_get "TM2" codes); cbn; [|reflexivity].
  destruct (list_entries rest ds) as [[entries|e] ds'] eqn:E;
    simpl in IH; subst; reflexivity.
Qed.

Lemma list_diseases_state (ds : catalog) : snd (list_diseases ds) = ds.
Proof.
  unfold list_diseases, get_diseases, bind, ret. cbn.
  pose proof (list_entries_state ds ds) as H.
  destruct (list_entries ds ds) as [[entries|e] ds']; simpl in *; subst;
    reflexivity.
Qed.

(** ** Invariants along a run *)

Lemma handle_stable (P : catalog -> Prop) (HP : stable P)
      (scorer : string -> string -> Q) (r : request) (ds : catalog) :
  P ds -> P (snd (handle scorer r ds)).
Proof.
  intros H. destruct r as [arg| |disease data|disease]; simpl.
  - now rewrite get_code_state.
  - now rewrite list_diseases_state.
  - now apply update_disease_stable.
  - now apply delete_disease_stable.
Qed.

Lemma run_stable (P : catalog -> Prop) (HP : stable P)
      (scorer : string -> string -> Q) (rs : list request) :
  forall ds, P ds -> P (run scorer rs ds).
Proof.
  induction rs as [|r rs IH]; intros ds H; simpl; [exact H|].
  apply IH. now apply handle_stable.
Qed.

Lemma dict_mem_of_get {V} (k : string) (d : dict V) (v : V) :
  dict_get k d = Some v -> dict_mem k d = true.
Proof. unfold dict_mem. now intros ->. Qed.

Lemma stable_catalog_ok : stable (fun ds => catalog_ok ds = true).
Proof.
  split.
  - intros k field v codes ds Hok Hget.
    apply catalog_ok_set; [assumption|].
    apply codes_ok_set. exact (catalog_ok_get _ _ _ Hok Hget).
  - intros k ds. apply catalog_ok_del.
Qed.

Lemma stable_dict_wf : stable (fun ds : catalog => dict_wf ds).
Proof.
  split.
  - intros k field v codes ds Hwf Hget.
    apply dict_wf_set; [exact (dict_mem_of_get _ _ _ Hget) | assumption].
  - intros k ds. apply dict_wf_del.
Qed.

Lemma stable_names_sorted : stable names_sorted.
Proof.
  split.
  - intros k field v codes ds Hs Hget. unfold names_sorted.
    rewrite dict_keys_set; [assumption | exact (dict_mem_of_get _ _ _ Hget)].
  - intros k ds. apply names_sorted_del.
Qed.

Lemma diseases0_wf : dict_wf diseases0.
Proof.
  unfold dict_wf. simpl.
  repeat constructor; simpl; intuition discriminate.
Qed.

Lemma diseases0_sorted : names_sorted diseases0.
Proof.
  unfold names_sorted. simpl. repeat constructor.
Qed.

(** * The name-resolution claims *)

(** ** Exact match *)

(** C1.  A query that, once trimmed, is the name of a disease of the catalog
    (the comparison is the case-sensitive one of the dict lookup) gets the
    [Condition] of that disease, built from the name and the two codes stored
    under it, without a note.  The answer is the same for every scorer: the
    fuzzy search has no part in it. *)
Theorem get_code_exact (scorer : string -> string -> Q)
        (query name : string) (codes : codes_t) (icd11 tm2 : json)
        (ds : catalog) :
  PyStr.strip query = name ->
  name <> "" ->
  dict_get name ds = Some codes ->
  dict_get "ICD11" codes = Some icd11 ->
  dict_get "TM2" codes = Some tm2 ->
  get_code scorer (Some query) ds
  = (Returns (fhir_condition name icd11 tm2, 200), ds).
Proof.
  intros Hq Hne Hget Hi Ht. rewrite get_code_eq. cbv zeta. simpl args_get.
  rewrite Hq, (is_empty_false _ Hne), (dict_mem_of_get _ _ _ Hget).
  unfold condition_of. now rewrite Hget, Hi, Ht.
Qed.

Lemma get_code_exact_witness :
  get_code Indel.ratio (Some "  Asthma ") diseases0
  = (Returns (fhir_condition "Asthma" (JStr "CA23") (JStr "TM2-404"), 200),
     diseases0).
Proof.
  apply (get_code_exact Indel.ratio "  Asthma " "Asthma"
           [("ICD11", JStr "CA23"); ("TM2", JStr "TM2-404")]).
  - reflexivity.
  - discriminate.
  - reflexivity.
  - reflexivity.
  - reflexivity.
Defined.

(** ** Blank queries *)

(** C5.  A query that is empty or holds whitespace only (an absent parameter
    counts as empty) is answered with the [invalid] outcome and status 400,
    whatever the catalog and the scorer are; no lookup takes place and the
    catalog stays as it was. *)
Theorem get_code_blank_query (scorer : string -> string -> Q)
        (arg : option string) (ds : catalog) :
  PyStr.blank (args_get arg "") = true ->
  get_code scorer arg ds
  = (Returns (operation_outcome "error" "invalid" "No disease provided", 400),
     ds).
Proof.
  intros H. rewrite get_code_eq. cbv zeta.
  now rewrite (strip_blank _ H).
Qed.

Lemma get_code_blank_query_witness :
  get_code Indel.ratio (Some "   ") diseases0
  = (Returns (operation_outcome "error" "invalid" "No disease provided", 400),
     diseases0).
Proof.
  apply (get_code_blank_query Indel.ratio (Some "   ") diseases0).
  reflexivity.
Defined.

(** ** Empty catalog *)

(** C4.  On an empty catalog a query that is not blank does not reach the
    [not-found] answer: [extractOne] has no choice to return, and unpacking
    its [None] raises [TypeError]. *)
Theorem get_code_empty_catalog_raises (scorer : string -> string -> Q)
        (query : string) :
  PyStr.strip query <> "" ->
  get_code scorer (Some query) [] = (Raises TypeError, []).
Proof.
  intros Hne. rewrite get_code_eq. cbv zeta. simpl args_get.
  now rewrite (is_empty_false _ Hne).
Qed.

Lemma get_code_empty_catalog_raises_witness :
  run Indel.ratio
      [DeleteDisease "Asthma"; DeleteDisease "Diabetes mellitus";
       DeleteDisease "Fever"] diseases0 = []
  /\ get_code Indel.ratio (Some "Fever") [] = (Raises TypeError, []).
Proof.
  split.
  - reflexivity.
  - apply (get_code_empty_catalog_raises Indel.ratio "Fever"). discriminate.
Defined.

(** ** No side effect *)

(** C9.  [get_code] leaves the catalog as it found it, whatever the query,
    the catalog and the outcome are (an exception included); hence a query
    gets the same answer again after any other query has been served. *)
Theorem get_code_pure (scorer : string -> string -> Q)
        (arg arg' : option string) (ds : catalog) :
  snd (get_code scorer arg ds) = ds
  /\ get_code scorer arg (snd (get_code scorer arg' ds))
     = get_code scorer arg ds.
Proof.
  split.
  - apply get_code_state.
  - now rewrite get_code_state.
Qed.

(** ** The fuzzy branch *)

Lemma get_code_miss_eq (scorer : string -> string -> Q)
      (query : string) (ds : catalog) :
  PyStr.strip query <> "" ->
  dict_get (PyStr.strip query) ds = None ->
  get_code scorer (Some query) ds
  = (match extractOne scorer (PyStr.strip query) (dict_keys ds) with
     | None => Raises TypeError
     | Some (m, score, _) =>
         if Qltb (70 # 1) score then condition_of true m ds
         else Returns disease_not_found
     end, ds).
Proof.
  intros Hne Hmiss. rewrite get_code_eq. cbv zeta. simpl args_get.
  rewrite (is_empty_false _ Hne). unfold dict_mem. now rewrite Hmiss.
Qed.

Lemma dict_keys_nonempty {V} (d : dict V) : d <> [] -> dict_keys d <> [].
Proof. destruct d; [congruence | discriminate]. Qed.

(** A fuzzy answer comes from nowhere but the fuzzy branch: [extractOne]
    returned the name it shows, with a score above 70. *)
Lemma get_code_note_inv (scorer : string -> string -> Q)
      (arg : option string) (ds : catalog) (m : string) (icd11 tm2 : json) :
  get_code scorer arg ds
  = (Returns (fhir_condition_note m icd11 tm2, 200), ds) ->
  exists score i,
    extractOne scorer (PyStr.strip (args_get arg "")) (dict_keys ds)
    = Some (m, score, i)
    /\ (70 # 1 < score)%Q.
Proof.
  rewrite get_code_eq. cbv zeta.
  set (disease := PyStr.strip _).
  destruct (PyStr.is_empty disease); [discriminate|].
  destruct (dict_mem disease ds).
  - unfold condition_of.
    destruct (dict_get disease ds) as [codes|]; [|discriminate].
    destruct (dict_get "ICD11" codes); [|discriminate].
    destruct (dict_get "TM2" codes); discriminate.
  - destruct (extractOne scorer disease (dict_keys ds)) as [[[m' score] i]|];
      [|discriminate].
    destruct (Qltb (70 # 1) score) eqn:E; [|discriminate].
    unfold condition_of.
    destruct (dict_get m' ds) as [codes|]; [|discriminate].
    destruct (dict_get "ICD11" codes); [|discriminate].
    destruct (dict_get "TM2" codes); [|discriminate].
    intros H. assert (m' = m) as -> by (unfold fhir_condition_note, coding in H; congruence).
    exists score, i. split; [reflexivity | now apply Qltb_lt].
Qed.

(** C2.  On an exact miss over a catalog that is not empty there is a best
    candidate: a name whose score no other name exceeds.  The answer is the
    fuzzy [Condition] of that name, with the codes stored under it, when its
    score is strictly above 70, and the [not-found] outcome (status 404) when
    its score is 70 or less. *)
Theorem get_code_fuzzy_threshold (scorer : string -> string -> Q)
        (query : string) (ds : catalog) :
  catalog_ok ds = true ->
  ds <> [] ->
  PyStr.strip query <> "" ->
  dict_get (PyStr.strip query) ds = None ->
  exists best codes icd11 tm2,
    In best (dict_keys ds)
    /\ (forall n, In n (dict_keys ds) ->
                  (scorer (PyStr.strip query) n
                   <= scorer (PyStr.strip query) best)%Q)
    /\ dict_get best ds = Some codes
    /\ dict_get "ICD11" codes = Some icd11
    /\ dict_get "TM2" codes = Some tm2
    /\ ((70 # 1 < scorer (PyStr.strip query) best)%Q ->
        get_code scorer (Some query) ds
        = (Returns (fhir_condition_note best icd11 tm2, 200), ds))
    /\ ((scorer (PyStr.strip query) best <= 70 # 1)%Q ->
        get_code scorer (Some query) ds = (Returns disease_not_found, ds)).
Proof.
  intros Hok Hne Hq Hmiss.
  destruct (extractOne_first_best scorer (PyStr.strip query) (dict_keys ds)
              (dict_keys_nonempty ds Hne))
    as (l1 & best & l2 & Hkeys & Hres & H1 & H2).
  assert (Hin : In best (dict_keys ds))
    by (rewrite Hkeys; apply in_or_app; right; now left).
  destruct (condition_of_ok true best ds Hok Hin)
    as (codes & icd11 & tm2 & Hc & Hi & Ht & Hcond).
  exists best, codes, icd11, tm2.
  rewrite (get_code_miss_eq scorer query ds Hq Hmiss), Hres, Hcond.
  repeat split; auto.
  - intros n Hn. rewrite Hkeys in Hn.
    rewrite Forall_forall in H1, H2.
    apply in_app_or in Hn as [Hn|[<-|Hn]].
    + apply Qlt_le_weak. now apply H1.
    + apply Qle_refl.
    + now apply H2.
  - intros Hgt. apply Qltb_lt in Hgt. now rewrite Hgt.
  - intros Hle. apply Qltb_ge in Hle. now rewrite Hle.
Qed.

Lemma get_code_fuzzy_threshold_witness :
  exists best codes icd11 tm2,
    In best (dict_keys diseases0)
    /\ (forall n, In n (dict_keys diseases0) ->
                  (Indel.ratio (PyStr.strip "asthma") n
                   <= Indel.ratio (PyStr.strip "asthma") best)%Q)
    /\ dict_get best diseases0 = Some codes
    /\ dict_get "ICD11" codes = Some icd11
    /\ dict_get "TM2" codes = Some tm2
    /\ ((70 # 1 < Indel.ratio (PyStr.strip "asthma") best)%Q ->
        get_code Indel.ratio (Some "asthma") diseases0
        = (Returns (fhir_condition_note best icd11 tm2, 200), diseases0))
    /\ ((Indel.ratio (PyStr.strip "asthma") best <= 70 # 1)%Q ->
        get_code Indel.ratio (Some "asthma") diseases0
        = (Returns disease_not_found, diseases0)).
Proof.
  apply (get_code_fuzzy_threshold Indel.ratio "asthma" diseases0).
  - reflexivity.
  - discriminate.
  - discriminate.
  - reflexivity.
Defined.

(** The boundary is exclusive: a best score of exactly 70 is a miss, a score
    just above it a match. *)
Example get_code_score_70 :
  get_code (fun _ _ => (70 # 1)%Q) (Some "Feverish") diseases0
  = (Returns disease_not_found, diseases0).
Proof. reflexivity. Qed.

Example get_code_score_above_70 :
  get_code (fun _ _ => (701 # 10)%Q) (Some "Feverish") diseases0
  = (Returns (fhir_condition_note "Asthma" (JStr "CA23") (JStr "TM2-404"),
              200), diseases0).
Proof. reflexivity. Qed.

(** ** Ties *)

Lemma StronglySorted_after {A} (R : A -> A -> Prop) (l1 l2 : list A) (x : A) :
  StronglySorted R (l1 ++ x :: l2) -> Forall (R x) l2.
Proof.
  induction l1 as [|a l1 IH]; simpl; intros H;
    apply StronglySorted_inv in H as [Hs Hall]; auto.
Qed.

(** C3, as stated, fails.  Against the query ["ab"] the two names of
    [tied_catalog] score the same, 80, under the Indel ratio; ["abc"] is the
    lexicographically first of the two, and the answer names ["abd"], the one
    that comes first in the catalog. *)
Lemma tie_break_not_lexicographic :
  (Indel.ratio "ab" "abd" == Indel.ratio "ab" "abc")%Q
  /\ String.ltb "abc" "abd" = true
  /\ get_code Indel.ratio (Some "ab") tied_catalog
     = (Returns (fhir_condition_note "abd" (JStr "D1") (JStr "TM2-1"), 200),
        tied_catalog)
  /\ ~ (exists icd11 tm2,
           get_code Indel.ratio (Some "ab") tied_catalog
           = (Returns (fhir_condition_note "abc" icd11 tm2, 200),
              tied_catalog)).
Proof.
  split; [reflexivity|]. split; [reflexivity|]. split; [reflexivity|].
  intros (icd11 & tm2 & H). vm_compute in H. discriminate H.
Qed.

(** C3, amended.  The name of a fuzzy answer is the first name, in the
    iteration order of the catalog, that reaches the highest score: every
    name before it scores strictly less, every name after it at most as
    much.  Where the names of the catalog stand in increasing lexicographic
    order, this is the lexicographically first of the names that tie.  The
    choice is stable: asked again, [get_code] answers the same. *)
Theorem get_code_tie_first_in_catalog (scorer : string -> string -> Q)
        (query m : string) (icd11 tm2 : json) (ds : catalog) :
  get_code scorer (Some query) ds
  = (Returns (fhir_condition_note m icd11 tm2, 200), ds) ->
  let q := PyStr.strip query in
  (exists l1 l2,
      dict_keys ds = l1 ++ m :: l2
      /\ Forall (fun n => (scorer q n < scorer q m)%Q) l1
      /\ Forall (fun n => (scorer q n <= scorer q m)%Q) l2)
  /\ (names_sorted ds ->
      forall n, In n (dict_keys ds) -> (scorer q n == scorer q m)%Q ->
                n = m \/ String.ltb m n = true)
  /\ get_code scorer (Some query) (snd (get_code scorer (Some query) ds))
     = get_code scorer (Some query) ds.
Proof.
  intros H q.
  destruct (get_code_note_inv scorer (Some query) ds m icd11 tm2 H)
    as (score & i & Hres & _).
  simpl args_get in Hres. fold q in Hres.
  assert (Hne : dict_keys ds <> [])
    by (intros E; rewrite E in Hres; discriminate).
  destruct (extractOne_first_best scorer q (dict_keys ds) Hne)
    as (l1 & m' & l2 & Hkeys & Hres' & H1 & H2).
  rewrite Hres in Hres'. injection Hres' as <- _ _.
  split; [now exists l1, l2|]. split.
  - intros Hsorted n Hn Htie. unfold names_sorted in Hsorted.
    rewrite Hkeys in Hn, Hsorted.
    apply in_app_or in Hn as [Hn|[Hn|Hn]].
    + rewrite Forall_forall in H1. specialize (H1 n Hn).
      rewrite Htie in H1. exfalso. exact (Qlt_irrefl _ H1).
    + now left.
    + right. apply StronglySorted_after in Hsorted.
      rewrite Forall_forall in Hsorted. now apply Hsorted.
  - now rewrite get_code_state.
Qed.

Lemma get_code_tie_first_in_catalog_witness :
  let q := PyStr.strip "ab" in
  (exists l1 l2,
      dict_keys tied_catalog = l1 ++ "abd" :: l2
      /\ Forall (fun n => (Indel.ratio q n < Indel.ratio q "abd")%Q) l1
      /\ Forall (fun n => (Indel.ratio q n <= Indel.ratio q "abd")%Q) l2)
  /\ (names_sorted tied_catalog ->
      forall n, In n (dict_keys tied_catalog) ->
                (Indel.ratio q n == Indel.ratio q "abd")%Q ->
                n = "abd" \/ String.ltb "abd" n = true)
  /\ get_code Indel.ratio (Some "ab")
              (snd (get_code Indel.ratio (Some "ab") tied_catalog))
     = get_code Indel.ratio (Some "ab") tied_catalog.
Proof.
  apply (get_code_tie_first_in_catalog Indel.ratio "ab" "abd"
           (JStr "D1") (JStr "TM2-1") tied_catalog).
  reflexivity.
Defined.

(** The catalogs the service can reach from its seed keep their names in
    increasing lexicographic order, and hold each name once. *)
Lemma run_names_sorted (scorer : string -> string -> Q) (rs : list request) :
  names_sorted (run scorer rs diseases0) /\ dict_wf (run scorer rs diseases0).
Proof.
  split.
  - apply run_stable; [exact stable_names_sorted | exact diseases0_sorted].
  - apply (run_stable (fun ds => dict_wf ds));
      [exact stable_dict_wf | exact diseases0_wf].
Qed.

(** * The mutation claims *)

(** ** Update *)

Lemma update_field_eq (disease field : string) (fields : dict json)
      (codes : codes_t) (old : json) (ds : catalog) :
  dict_get disease ds = Some codes ->
  dict_get field codes = Some old ->
  update_field disease field (JObj fields) ds
  = (Returns tt,
     dict_set disease (dict_set field (supplied fields field old) codes) ds).
Proof.
  intros Hc Hf. unfold update_field, data_get, diseases_getitem,
    diseases_setfield, getitem, get_diseases, put_diseases, bind, ret, raise.
  cbn. rewrite Hc. cbn. rewrite Hf. cbn. rewrite Hc. reflexivity.
Qed.

Lemma dict_keys_set_twice {V} (k : string) (v1 v2 : V) (d : dict V) :
  dict_mem k d = true ->
  dict_keys (dict_set k v2 (dict_set k v1 d)) = dict_keys d.
Proof.
  intros H. rewrite dict_keys_set, dict_keys_set; auto.
  rewrite dict_mem_set, String.eqb_refl. reflexivity.
Qed.

(** C6.  For a disease of the catalog and a JSON object as body,
    [update_disease] answers [updated]; afterwards each of the two codes is
    the value the body supplies for it, or its previous value when the body
    has none; nothing else of the entry changes, no other disease changes,
    and the order of the names is kept. *)
Theorem update_disease_partial (name : string) (fields : dict json)
        (codes : codes_t) (icd11 tm2 : json) (ds : catalog) :
  dict_get name ds = Some codes ->
  dict_get "ICD11" codes = Some icd11 ->
  dict_get "TM2" codes = Some tm2 ->
  exists ds' codes',
    update_disease name (JObj fields) ds
    = (Returns (operation_outcome "information" "updated"
                  (name ++ " updated successfully"), 200), ds')
    /\ dict_get name ds' = Some codes'
    /\ dict_get "ICD11" codes' = Some (supplied fields "ICD11" icd11)
    /\ dict_get "TM2" codes' = Some (supplied fields "TM2" tm2)
    /\ (forall field, field <> "ICD11" -> field <> "TM2" ->
                      dict_get field codes' = dict_get field codes)
    /\ (forall other, other <> name -> dict_get other ds' = dict_get other ds)
    /\ dict_keys ds' = dict_keys ds.
Proof.
  intros Hc Hi Ht.
  set (codes1 := dict_set "ICD11" (supplied fields "ICD11" icd11) codes).
  set (ds1 := dict_set name codes1 ds).
  set (codes2 := dict_set "TM2" (supplied fields "TM2" tm2) codes1).
  exists (dict_set name codes2 ds1), codes2.
  assert (Hc1 : dict_get name ds1 = Some codes1)
    by apply dict_get_set_same.
  assert (Ht1 : dict_get "TM2" codes1 = Some tm2)
    by (unfold codes1; rewrite dict_get_set_other; [assumption|discriminate]).
  split.
  - unfold update_disease, diseases_contains.
    unfold bind at 1 2. unfold get_diseases, ret at 1.
    rewrite (dict_mem_of_get _ _ _ Hc).
    rewrite (bind_returns _ _ _ _ _ (update_field_eq _ _ _ _ _ _ Hc Hi)).
    fold codes1 ds1.
    rewrite (bind_returns _ _ _ _ _ (update_field_eq _ _ _ _ _ _ Hc1 Ht1)).
    reflexivity.
  - split; [apply dict_get_set_same|].
    split.
    { unfold codes2. rewrite dict_get_set_other by discriminate.
      apply dict_get_set_same. }
    split; [apply dict_get_set_same|].
    split.
    { intros field H1 H2. unfold codes2, codes1.
      now rewrite !dict_get_set_other. }
    split.
    { intros other Hne. unfold ds1. now rewrite !dict_get_set_other. }
    apply dict_keys_set_twice. exact (dict_mem_of_get _ _ _ Hc).
Qed.

Lemma update_disease_partial_witness :
  exists ds' codes',
    update_disease "Asthma" (JObj [("ICD11", JStr "X1")]) diseases0
    = (Returns (operation_outcome "information" "updated"
                  ("Asthma" ++ " updated successfully"), 200), ds')
    /\ dict_get "Asthma" ds' = Some codes'
    /\ dict_get "ICD11" codes'
       = Some (supplied [("ICD11", JStr "X1")] "ICD11" (JStr "CA23"))
    /\ dict_get "TM2" codes'
       = Some (supplied [("ICD11", JStr "X1")] "TM2" (JStr "TM2-404"))
    /\ (forall field, field <> "ICD11" -> field <> "TM2" ->
                      dict_get field codes'
                      = dict_get field
                          [("ICD11", JStr "CA23"); ("TM2", JStr "TM2-404")])
    /\ (forall other, other <> "Asthma" ->
                      dict_get other ds' = dict_get other diseases0)
    /\ dict_keys ds' = dict_keys diseases0.
Proof.
  apply (update_disease_partial "Asthma" [("ICD11", JStr "X1")]
           [("ICD11", JStr "CA23"); ("TM2", JStr "TM2-404")]
           (JStr "CA23") (JStr "TM2-404") diseases0).
  - reflexivity.
  - reflexivity.
  - reflexivity.
Defined.

(** The round trip of the specification's example: only the first code of
    Asthma changes. *)
Example update_asthma_icd11 :
  snd (update_disease "Asthma" (JObj [("ICD11", JStr "X1")]) diseases0)
  = [ ("Asthma", [("ICD11", JStr "X1"); ("TM2", JStr "TM2-404")]);
      ("Diabetes mellitus", [("ICD11", JStr "5A11"); ("TM2", JStr "TM2-101")]);
      ("Fever", [("ICD11", JStr "MG21"); ("TM2", JStr "TM2-210")]) ].
Proof. reflexivity. Qed.

(** ** Absent names *)

Lemma delete_disease_present (name : string) (codes : codes_t) (ds : catalog) :
  dict_get name ds = Some codes ->
  delete_disease name ds
  = (Returns (operation_outcome "information" "deleted"
                (name ++ " deleted successfully"), 200), dict_del name ds).
Proof.
  intros H. unfold delete_disease, diseases_contains, diseases_delitem,
    get_diseases, put_diseases, bind, ret, raise, dict_mem.
  rewrite H. cbn. rewrite H. reflexivity.
Qed.

Lemma delete_disease_absent (name : string) (ds : catalog) :
  dict_get name ds = None ->
  delete_disease name ds = (Returns disease_not_found, ds).
Proof.
  intros H. unfold delete_disease, diseases_contains, get_diseases, bind,
    ret, dict_mem. now rewrite H.
Qed.

Lemma update_disease_absent (name : string) (data : json) (ds : catalog) :
  dict_get name ds = None ->
  update_disease name data ds = (Returns disease_not_found, ds).
Proof.
  intros H. unfold update_disease, diseases_contains, get_diseases, bind,
    ret, dict_mem. now rewrite H.
Qed.

(** C7.  In a catalog (a dict: each name once), for a name that is absent,
    [update_disease] (whatever the body) and [delete_disease] answer with the
    [not-found] outcome, status 404, and leave the catalog as it was.  For a
    name that is present, [delete_disease] removes it, after which the name is
    absent and a second [delete_disease] is such a [not-found] that changes
    nothing. *)
Theorem mutation_of_absent_name (name : string) (data : json) (ds : catalog) :
  dict_wf ds ->
  (dict_get name ds = None ->
   update_disease name data ds = (Returns disease_not_found, ds)
   /\ delete_disease name ds = (Returns disease_not_found, ds))
  /\ (forall codes, dict_get name ds = Some codes ->
        delete_disease name ds
        = (Returns (operation_outcome "information" "deleted"
                      (name ++ " deleted successfully"), 200),
           dict_del name ds)
        /\ dict_get name (dict_del name ds) = None
        /\ delete_disease name (dict_del name ds)
           = (Returns disease_not_found, dict_del name ds)).
Proof.
  intros Hwf. split.
  - intros H. split;
      [now apply update_disease_absent | now apply delete_disease_absent].
  - intros codes H.
    pose proof (dict_get_del_same name ds Hwf) as Hgone.
    split; [exact (delete_disease_present _ _ _ H)|].
    split; [exact Hgone | now apply delete_disease_absent].
Qed.

Lemma mutation_of_absent_name_witness :
  (update_disease "Malaria" JNull diseases0 = (Returns disease_not_found, diseases0)
   /\ delete_disease "Malaria" diseases0 = (Returns disease_not_found, diseases0))
  /\ (delete_disease "Fever" diseases0
      = (Returns (operation_outcome "information" "deleted"
                    ("Fever" ++ " deleted successfully"), 200),
         dict_del "Fever" diseases0)
      /\ dict_get "Fever" (dict_del "Fever" diseases0) = None
      /\ delete_disease "Fever" (dict_del "Fever" diseases0)
         = (Returns disease_not_found, dict_del "Fever" diseases0)).
Proof.
  split.
  - apply (proj1 (mutation_of_absent_name "Malaria" JNull diseases0
                    diseases0_wf)).
    reflexivity.
  - apply (proj2 (mutation_of_absent_name "Fever" JNull diseases0
                    diseases0_wf)
             [("ICD11", JStr "MG21"); ("TM2", JStr "TM2-210")]).
    reflexivity.
Defined.

(** ** Both codes, always *)

(** C8.  Every disease of the seed catalog has both codes; from a catalog
    where every disease has both, [update_disease] (whatever the body, and
    also when it raises) and [delete_disease] lead to such a catalog again;
    so every catalog the service reaches from its seed has both codes for
    every disease it holds. *)
Theorem catalog_always_ok (scorer : string -> string -> Q) :
  catalog_ok diseases0 = true
  /\ (forall ds disease data,
         catalog_ok ds = true ->
         catalog_ok (snd (update_disease disease data ds)) = true
         /\ catalog_ok (snd (delete_disease disease ds)) = true)
  /\ (forall rs, catalog_ok (run scorer rs diseases0) = true).
Proof.
  split; [reflexivity|]. split.
  - intros ds disease data Hok. split.
    + now apply (update_disease_stable _ stable_catalog_ok).
    + now apply (delete_disease_stable _ stable_catalog_ok).
  - intros rs.
    now apply (run_stable _ stable_catalog_ok).
Qed.

Lemma catalog_always_ok_witness :
  catalog_ok (snd (update_disease "Fever" (JObj [("TM2", JNull)]) diseases0))
  = true
  /\ catalog_ok (snd (delete_disease "Fever" diseases0)) = true.
Proof.
  apply (proj1 (proj2 (catalog_always_ok Indel.ratio))
           diseases0 "Fever" (JObj [("TM2", JNull)])).
  reflexivity.
Defined.

(** What the invariant does not say: the value of a code is whatever the
    body of an update supplied, a JSON null for one. *)
Example update_stores_any_value :
  dict_get "Fever"
    (snd (update_disease "Fever" (JObj [("TM2", JNull)]) diseases0))
  = Some [("ICD11", JStr "MG21"); ("TM2", JNull)].
Proof. reflexivity. Qed.

(** A body that is no JSON object makes the update raise before anything is
    written. *)
Example update_with_array_body :
  update_disease "Fever" (JArr []) diseases0 = (Raises AttributeError, diseases0).
Proof. reflexivity. Qed.

(** * The seeded scenario *)

(** C10.  On the seed catalog the query ["asthma"] misses the exact lookup,
    which is case-sensitive.  With a scorer that rates ["Asthma"] above 70
    against it and no other seeded name higher than ["Asthma"], the fuzzy
    branch answers with the [Condition] of ["Asthma"], codes CA23 and
    TM2-404. *)
Theorem get_code_asthma_lowercase (scorer : string -> string -> Q) :
  (70 # 1 < scorer "asthma" "Asthma")%Q ->
  (scorer "asthma" "Diabetes mellitus" <= scorer "asthma" "Asthma")%Q ->
  (scorer "asthma" "Fever" <= scorer "asthma" "Asthma")%Q ->
  dict_mem "asthma" diseases0 = false
  /\ extractOne scorer "asthma" (dict_keys diseases0)
     = Some ("Asthma", scorer "asthma" "Asthma", 0)
  /\ get_code scorer (Some "asthma") diseases0
     = (Returns (fhir_condition_note "Asthma" (JStr "CA23") (JStr "TM2-404"),
                 200), diseases0).
Proof.
  intros Hgt Hd Hf.
  assert (Hres : extractOne scorer "asthma" (dict_keys diseases0)
                 = Some ("Asthma", scorer "asthma" "Asthma", 0)).
  { unfold extractOne. simpl.
    apply Qltb_ge in Hd. rewrite Hd.
    apply Qltb_ge in Hf. now rewrite Hf. }
  split; [reflexivity|]. split; [exact Hres|].
  rewrite get_code_miss_eq by (try discriminate; reflexivity).
  change (PyStr.strip "asthma") with "asthma". rewrite Hres.
  apply Qltb_lt in Hgt. rewrite Hgt. reflexivity.
Qed.

Lemma get_code_asthma_lowercase_witness :
  dict_mem "asthma" diseases0 = false
  /\ extractOne Indel.ratio "asthma" (dict_keys diseases0)
     = Some ("Asthma", Indel.ratio "asthma" "Asthma", 0)
  /\ get_code Indel.ratio (Some "asthma") diseases0
     = (Returns (fhir_condition_note "Asthma" (JStr "CA23") (JStr "TM2-404"),
                 200), diseases0).
Proof.
  apply (get_code_asthma_lowercase Indel.ratio).
  - reflexivity.
  - vm_compute. discriminate.
  - vm_compute. discriminate.
Defined.

(** * Further properties of the handlers *)

(** ** More on [strip] *)

Lemma lstrip_empty (s : string) : PyStr.lstrip s = "" -> PyStr.blank s = true.
Proof.
  induction s as [|c s IH]; simpl; [reflexivity|].
  destruct (PyStr.isspace c); [exact IH | discriminate].
Qed.

Lemma lstrip_head (s : string) (c : ascii) (t : string) :
  PyStr.lstrip s = String c t -> PyStr.isspace c = false.
Proof.
  induction s as [|d s IH]; simpl; [discriminate|].
  destruct (PyStr.isspace d) eqn:E; [exact IH|].
  intros [= -> _]. exact E.
Qed.

Lemma rstrip_head (c : ascii) (t : string) :
  PyStr.isspace c = false -> exists r, PyStr.rstrip (String c t) = String c r.
Proof.
  intros H. simpl. rewrite H. destruct (PyStr.rstrip t); eauto.
Qed.

Lemma rstrip_idem (s : string) : PyStr.rstrip (PyStr.rstrip s) = PyStr.rstrip s.
Proof.
  induction s as [|c s IH]; simpl; [reflexivity|].
  destruct (PyStr.rstrip s) as [|d r] eqn:E.
  - destruct (PyStr.isspace c) eqn:Ec; simpl; [reflexivity|].
    now rewrite Ec.
  - change (PyStr.rstrip (String c (String d r)))
      with (match PyStr.rstrip (String d r) with
            | EmptyString =>
                if PyStr.isspace c then EmptyString else String c EmptyString
            | r0 => String c r0
            end).
    rewrite IH. reflexivity.
Qed.

Lemma strip_empty (s : string) : PyStr.strip s = "" -> PyStr.blank s = true.
Proof.
  unfold PyStr.strip. intros H.
  destruct (PyStr.lstrip s) as [|c t] eqn:E; [now apply lstrip_empty|].
  destruct (rstrip_head c t (lstrip_head _ _ _ E)) as [r Hr]. congruence.
Qed.

Lemma strip_idem (s : string) : PyStr.strip (PyStr.strip s) = PyStr.strip s.
Proof.
  unfold PyStr.strip.
  destruct (PyStr.lstrip s) as [|c t] eqn:E; [reflexivity|].
  pose proof (lstrip_head _ _ _ E) as Hc.
  destruct (rstrip_head c t Hc) as [r Hr].
  assert (Hl : PyStr.lstrip (PyStr.rstrip (String c t))
               = PyStr.rstrip (String c t))
    by (rewrite Hr; simpl; now rewrite Hc).
  rewrite Hl. apply rstrip_idem.
Qed.

(** ** More on dicts *)

Lemma dict_set_same_value {V} (k : string) (v : V) (d : dict V) :
  dict_get k d = Some v -> dict_set k v d = d.
Proof.
  induction d as [|[k' v'] d IH]; simpl; [discriminate|].
  destruct (String.eqb_spec k k') as [->|Hne].
  - now intros [= ->].
  - intros H. now rewrite IH.
Qed.

Lemma dict_set_set {V} (k : string) (v1 v2 : V) (d : dict V) :
  dict_set k v2 (dict_set k v1 d) = dict_set k v2 d.
Proof.
  induction d as [|[k' v'] d IH]; simpl.
  - now rewrite String.eqb_refl.
  - destruct (String.eqb k k') eqn:E; simpl; rewrite E; [reflexivity|].
    now rewrite IH.
Qed.

Lemma dict_set_comm {V} (k1 k2 : string) (v1 v2 : V) (d : dict V) :
  k1 <> k2 -> dict_mem k1 d = true ->
  dict_set k1 v1 (dict_set k2 v2 d) = dict_set k2 v2 (dict_set k1 v1 d).
Proof.
  intros Hne. unfold dict_mem.
  induction d as [|[k' v'] d IH]; simpl; [discriminate|].
  destruct (String.eqb_spec k1 k') as [E1|E1];
    destruct (String.eqb_spec k2 k') as [E2|E2]; subst; simpl.
  - congruence.
  - rewrite String.eqb_refl.
    apply String.eqb_neq in E2. now rewrite E2.
  - rewrite String.eqb_refl.
    apply String.eqb_neq in E1. now rewrite E1.
  - intros H. apply String.eqb_neq in E1, E2. rewrite E1, E2.
    now rewrite IH.
Qed.

Lemma dict_del_split {V} (k : string) (v : V) (d : dict V) :
  dict_get k d = Some v ->
  exists l1 l2,
    d = l1 ++ (k, v) :: l2 /\ dict_del k d = l1 ++ l2 /\ dict_get k l1 = None.
Proof.
  induction d as [|[k' v'] d IH]; simpl; [discriminate|].
  destruct (String.eqb_spec k k') as [->|Hne].
  - intros [= ->]. now exists [], d.
  - intros H. destruct (IH H) as (l1 & l2 & -> & Hdel & Hnone).
    exists ((k', v') :: l1), l2. simpl. rewrite Hdel.
    apply String.eqb_neq in Hne. rewrite Hne. auto.
Qed.

(** ** [get_code]: which answers are possible *)

Lemma extractOne_in (scorer : string -> string -> Q) (query : string)
      (choices : list string) (m : string) (score : Q) (i : nat) :
  extractOne scorer query choices = Some (m, score, i) ->
  In m choices /\ score = scorer query m.
Proof.
  intros H. destruct choices as [|c rest] eqn:E; [discriminate|].
  rewrite <- E in *.
  destruct (extractOne_first_best scorer query choices)
    as (l1 & m' & l2 & Hkeys & Hres & _); [congruence|].
  rewrite H in Hres. injection Hres as -> -> _.
  split; [|reflexivity]. rewrite Hkeys. apply in_or_app. right. now left.
Qed.

Lemma condition_of_returns (note : bool) (name : string) (ds : catalog)
      (r : response) :
  condition_of note name ds = Returns r ->
  exists icd11 tm2,
    stored ds name icd11 tm2
    /\ r = ((if note then fhir_condition_note name icd11 tm2
             else fhir_condition name icd11 tm2), 200).
Proof.
  unfold condition_of, stored.
  destruct (dict_get name ds) as [codes|]; [|discriminate].
  destruct (dict_get "ICD11" codes) as [icd11|] eqn:Hi; [|discriminate].
  destruct (dict_get "TM2" codes) as [tm2|] eqn:Ht; [|discriminate].
  intros [= <-]. exists icd11, tm2. split; [|reflexivity].
  exists codes. auto.
Qed.

Lemma fhir_condition_inj (m m' : string) (i i' t t' : json) :
  fhir_condition m i t = fhir_condition m' i' t' -> m = m' /\ i = i' /\ t = t'.
Proof. unfold fhir_condition, coding. intros H. repeat split; congruence. Qed.

Lemma fhir_condition_note_inj (m m' : string) (i i' t t' : json) :
  fhir_condition_note m i t = fhir_condition_note m' i' t' ->
  m = m' /\ i = i' /\ t = t'.
Proof.
  unfold fhir_condition_note, coding. intros H. repeat split; congruence.
Qed.

(** The four shapes of a returned answer. *)
Lemma get_code_returns (scorer : string -> string -> Q)
      (arg : option string) (ds : catalog) (r : response) :
  fst (get_code scorer arg ds) = Returns r ->
  let q := PyStr.strip (args_get arg "") in
  (q = "" /\ r = invalid_query)
  \/ (q <> "" /\ exists icd11 tm2,
         stored ds q icd11 tm2 /\ r = (fhir_condition q icd11 tm2, 200))
  \/ (q <> "" /\ dict_get q ds = None /\ exists m icd11 tm2,
         stored ds m icd11 tm2
         /\ (70 # 1 < scorer q m)%Q
         /\ r = (fhir_condition_note m icd11 tm2, 200))
  \/ (q <> "" /\ dict_get q ds = None /\ ds <> [] /\ r = disease_not_found).
Proof.
  rewrite get_code_eq. cbv zeta. simpl fst.
  set (q := PyStr.strip _).
  destruct (PyStr.is_empty q) eqn:Eq.
  - intros [= <-]. left. split; [|reflexivity].
    destruct q; [reflexivity | discriminate].
  - assert (Hq : q <> "") by (intros E; rewrite E in Eq; discriminate).
    unfold dict_mem. destruct (dict_get q ds) as [codes|] eqn:Hget.
    + intros H. apply condition_of_returns in H as (i & t & Hst & ->).
      right. left. split; [assumption|]. now exists i, t.
    + destruct (extractOne scorer q (dict_keys ds)) as [[[m score] i]|] eqn:Hres;
        [|discriminate].
      apply extractOne_in in Hres as [Hin ->].
      destruct (Qltb (70 # 1) (scorer q m)) eqn:Hs.
      * intros H. apply condition_of_returns in H as (ic & t & Hst & ->).
        right. right. left. repeat split; auto.
        exists m, ic, t. repeat split; auto. now apply Qltb_lt.
      * intros [= <-]. right. right. right. repeat split; auto.
        intros E. rewrite E in Hin. exact Hin.
Qed.

Lemma get_code_of_stored (scorer : string -> string -> Q) (query : string)
      (icd11 tm2 : json) (ds : catalog) :
  PyStr.strip query <> "" ->
  stored ds (PyStr.strip query) icd11 tm2 ->
  get_code scorer (Some query) ds
  = (Returns (fhir_condition (PyStr.strip query) icd11 tm2, 200), ds).
Proof.
  intros Hne (codes & Hc & Hi & Ht). rewrite get_code_eq. cbv zeta.
  simpl args_get. rewrite (is_empty_false _ Hne), (dict_mem_of_get _ _ _ Hc).
  unfold condition_of. now rewrite Hc, Hi, Ht.
Qed.

(** X1.  The [invalid] answer (status 400) is given to blank queries and to
    no other: a query with one character that is not whitespace is never
    rejected as invalid. *)
Theorem get_code_invalid_iff_blank (scorer : string -> string -> Q)
        (arg : option string) (ds : catalog) :
  fst (get_code scorer arg ds) = Returns invalid_query
  <-> PyStr.blank (args_get arg "") = true.
Proof.
  split.
  - intros H. apply get_code_returns in H. cbv zeta in H.
    destruct H as [[Hq _] | [(_ & i & t & _ & H) | [(_ & _ & m & i & t & _ & _ & H)
                                                   | (_ & _ & _ & H)]]].
    + now apply strip_empty.
    + discriminate H.
    + discriminate H.
    + discriminate H.
  - intros H. rewrite get_code_eq. cbv zeta.
    now rewrite (strip_blank _ H).
Qed.

(** X2.  Over a catalog whose diseases have both codes, [get_code] raises in
    one situation only: the catalog is empty and the query is not blank; the
    exception then is the [TypeError] of the unpacking. *)
Theorem get_code_raises_iff (scorer : string -> string -> Q)
        (arg : option string) (ds : catalog) (e : exn) :
  catalog_ok ds = true ->
  (fst (get_code scorer arg ds) = Raises e
   <-> ds = [] /\ PyStr.strip (args_get arg "") <> "" /\ e = TypeError).
Proof.
  intros Hok. rewrite get_code_eq. cbv zeta. simpl fst.
  set (q := PyStr.strip _). split.
  - destruct (PyStr.is_empty q) eqn:Eq; [discriminate|].
    assert (Hq : q <> "") by (intros E; rewrite E in Eq; discriminate).
    unfold dict_mem. destruct (dict_get q ds) as [codes|] eqn:Hget.
    + destruct (condition_of_ok false q ds Hok (dict_get_keys _ _ _ Hget))
        as (c & i & t & _ & _ & _ & ->). discriminate.
    + destruct (extractOne scorer q (dict_keys ds)) as [[[m score] i]|] eqn:Hres.
      * apply extractOne_in in Hres as [Hin _].
        destruct (Qltb (70 # 1) score); [|discriminate].
        destruct (condition_of_ok true m ds Hok Hin)
          as (c & ic & t & _ & _ & _ & ->). discriminate.
      * intros [= <-]. repeat split; auto.
        destruct ds as [|item ds']; [reflexivity|].
        destruct (extractOne_first_best scorer q (dict_keys (item :: ds')))
          as (l1 & m & l2 & _ & Hsome & _); [discriminate | congruence].
  - intros (-> & Hq & ->). now rewrite (is_empty_false _ Hq).
Qed.

Lemma get_code_raises_iff_witness :
  fst (get_code Indel.ratio (Some "Fever") []) = Raises TypeError
  <-> [] = ([] : catalog) /\ PyStr.strip (args_get (Some "Fever") "") <> ""
      /\ TypeError = TypeError.
Proof.
  apply (get_code_raises_iff Indel.ratio (Some "Fever") [] TypeError).
  reflexivity.
Defined.

(** X3.  A [Condition] that [get_code] returns shows a disease of the
    catalog with the two codes stored under its name, status 200.  Without a
    note the disease is the trimmed query itself; with the note the trimmed
    query is no name of the catalog and the disease shown scores above 70
    against it. *)
Theorem get_code_answer_sound (scorer : string -> string -> Q)
        (arg : option string) (ds : catalog)
        (body : json) (status : nat) (m : string) (icd11 tm2 : json) :
  fst (get_code scorer arg ds) = Returns (body, status) ->
  body = fhir_condition m icd11 tm2 \/ body = fhir_condition_note m icd11 tm2 ->
  let q := PyStr.strip (args_get arg "") in
  stored ds m icd11 tm2
  /\ status = 200
  /\ (body = fhir_condition m icd11 tm2 -> m = q)
  /\ (body = fhir_condition_note m icd11 tm2 ->
      dict_get q ds = None /\ (70 # 1 < scorer q m)%Q).
Proof.
  intros H Hbody. cbv zeta. apply get_code_returns in H. cbv zeta in H.
  destruct H as [[_ H] | [(_ & i & t & Hst & H)
                          | [(_ & Hmiss & m' & i & t & Hst & Hs & H)
                            | (_ & _ & _ & H)]]].
  - injection H as -> ->. destruct Hbody; discriminate.
  - injection H as -> ->. destruct Hbody as [Hb|Hb]; [|discriminate Hb].
    apply fhir_condition_inj in Hb as (Hm & -> & ->). rewrite <- Hm.
    split; [assumption|]. split; [reflexivity|].
    split; [reflexivity | intros Hb; discriminate Hb].
  - injection H as -> ->. destruct Hbody as [Hb|Hb]; [discriminate Hb|].
    apply fhir_condition_note_inj in Hb as (-> & -> & ->).
    split; [assumption|]. split; [reflexivity|].
    split; [intros Hb; discriminate Hb | intros _; now split].
  - injection H as -> ->. destruct Hbody; discriminate.
Qed.

Lemma get_code_answer_sound_witness :
  let q := PyStr.strip (args_get (Some "asthma") "") in
  stored diseases0 "Asthma" (JStr "CA23") (JStr "TM2-404")
  /\ 200 = 200
  /\ (fhir_condition_note "Asthma" (JStr "CA23") (JStr "TM2-404")
      = fhir_condition "Asthma" (JStr "CA23") (JStr "TM2-404") -> "Asthma" = q)
  /\ (fhir_condition_note "Asthma" (JStr "CA23") (JStr "TM2-404")
      = fhir_condition_note "Asthma" (JStr "CA23") (JStr "TM2-404") ->
      dict_get q diseases0 = None /\ (70 # 1 < Indel.ratio q "Asthma")%Q).
Proof.
  apply (get_code_answer_sound Indel.ratio (Some "asthma") diseases0
           (fhir_condition_note "Asthma" (JStr "CA23") (JStr "TM2-404")) 200
           "Asthma" (JStr "CA23") (JStr "TM2-404")).
  - reflexivity.
  - right. reflexivity.
Defined.

(** X4.  [get_code] sees the query only through its trimmed form: the query
    and the query with its surrounding whitespace removed get the same
    answer. *)
Theorem get_code_trim_invariant (scorer : string -> string -> Q)
        (query : string) (ds : catalog) :
  get_code scorer (Some (PyStr.strip query)) ds
  = get_code scorer (Some query) ds.
Proof.
  rewrite !get_code_eq. cbv zeta. simpl args_get.
  now rewrite strip_idem.
Qed.

(** X5.  The name a fuzzy answer suggests can be asked for as it stands: if
    it has no surrounding whitespace and is not empty, querying it gives the
    exact answer with the very codes the suggestion showed. *)
Theorem fuzzy_suggestion_resolves (scorer : string -> string -> Q)
        (arg : option string) (ds : catalog) (m : string) (icd11 tm2 : json) :
  fst (get_code scorer arg ds)
  = Returns (fhir_condition_note m icd11 tm2, 200) ->
  PyStr.strip m = m ->
  m <> "" ->
  get_code scorer (Some m) ds = (Returns (fhir_condition m icd11 tm2, 200), ds).
Proof.
  intros H Hm Hne. apply get_code_returns in H. cbv zeta in H.
  destruct H as [[_ H] | [(_ & i & t & _ & H)
                          | [(_ & _ & m' & i & t & Hst & _ & H)
                            | (_ & _ & _ & H)]]];
    try discriminate H.
  assert (Hb : fhir_condition_note m icd11 tm2 = fhir_condition_note m' i t)
    by congruence.
  apply fhir_condition_note_inj in Hb as (-> & -> & ->).
  pose proof (get_code_of_stored scorer m' i t ds) as G.
  rewrite Hm in G. now apply G.
Qed.

Lemma fuzzy_suggestion_resolves_witness :
  get_code Indel.ratio (Some "Asthma") diseases0
  = (Returns (fhir_condition "Asthma" (JStr "CA23") (JStr "TM2-404"), 200),
     diseases0).
Proof.
  apply (fuzzy_suggestion_resolves Indel.ratio (Some "asthma") diseases0
           "Asthma" (JStr "CA23") (JStr "TM2-404")).
  - reflexivity.
  - reflexivity.
  - discriminate.
Defined.

(** ** [update_disease]: closed forms *)

Lemma update_disease_eq (name : string) (fields : dict json)
      (codes : codes_t) (icd11 tm2 : json) (ds : catalog) :
  dict_get name ds = Some codes ->
  dict_get "ICD11" codes = Some icd11 ->
  dict_get "TM2" codes = Some tm2 ->
  update_disease name (JObj fields) ds
  = (Returns (updated_ok name),
     dict_set name
       (dict_set "TM2" (supplied fields "TM2" tm2)
          (dict_set "ICD11" (supplied fields "ICD11" icd11) codes)) ds).
Proof.
  intros Hc Hi Ht.
  set (codes1 := dict_set "ICD11" (supplied fields "ICD11" icd11) codes).
  assert (Hc1 : dict_get name (dict_set name codes1 ds) = Some codes1)
    by apply dict_get_set_same.
  assert (Ht1 : dict_get "TM2" codes1 = Some tm2)
    by (unfold codes1; rewrite dict_get_set_other; [assumption|discriminate]).
  unfold update_disease, diseases_contains.
  unfold bind at 1 2. unfold get_diseases, ret at 1.
  rewrite (dict_mem_of_get _ _ _ Hc).
  rewrite (bind_returns _ _ _ _ _ (update_field_eq _ _ _ _ _ _ Hc Hi)).
  fold codes1.
  rewrite (bind_returns _ _ _ _ _ (update_field_eq _ _ _ _ _ _ Hc1 Ht1)).
  rewrite dict_set_set. reflexivity.
Qed.

Lemma update_disease_non_object (name : string) (data : json)
      (codes : codes_t) (ds : catalog) :
  dict_get name ds = Some codes ->
  is_object data = false ->
  update_disease name data ds = (Raises AttributeError, ds).
Proof.
  intros Hc Hd. unfold update_disease, diseases_contains.
  unfold bind at 1 2. unfold get_diseases, ret at 1.
  rewrite (dict_mem_of_get _ _ _ Hc).
  unfold update_field, data_get, bind, raise.
  destruct data; try reflexivity. discriminate Hd.
Qed.

Lemma stored_of_ok (ds : catalog) (name : string) (codes : codes_t) :
  catalog_ok ds = true -> dict_get name ds = Some codes ->
  exists icd11 tm2,
    dict_get "ICD11" codes = Some icd11 /\ dict_get "TM2" codes = Some tm2.
Proof.
  intros Hok Hc. exact (codes_ok_get codes (catalog_ok_get _ _ _ Hok Hc)).
Qed.

(** X6.  Round trip of an update: after [update_disease] with a JSON object
    on a disease of the catalog, asking [get_code] for that name (a name
    without surrounding whitespace) shows, for each code, the value the body
    supplied, or the previous one where the body had none. *)
Theorem update_then_get_code (scorer : string -> string -> Q)
        (name : string) (fields : dict json) (icd11 tm2 : json)
        (ds : catalog) :
  stored ds name icd11 tm2 ->
  PyStr.strip name = name ->
  name <> "" ->
  fst (get_code scorer (Some name)
         (snd (update_disease name (JObj fields) ds)))
  = Returns (fhir_condition name (supplied fields "ICD11" icd11)
                            (supplied fields "TM2" tm2), 200).
Proof.
  intros (codes & Hc & Hi & Ht) Hs Hne.
  rewrite (update_disease_eq name fields codes icd11 tm2 ds Hc Hi Ht).
  simpl snd.
  pose proof (get_code_of_stored scorer name
                (supplied fields "ICD11" icd11) (supplied fields "TM2" tm2)) as G.
  rewrite Hs in G. rewrite G; [reflexivity | assumption |].
  eexists. split; [apply dict_get_set_same|]. split.
  - rewrite dict_get_set_other by discriminate. apply dict_get_set_same.
  - apply dict_get_set_same.
Qed.

Lemma update_then_get_code_witness :
  fst (get_code Indel.ratio (Some "Fever")
         (snd (update_disease "Fever" (JObj [("TM2", JStr "T9")]) diseases0)))
  = Returns (fhir_condition "Fever"
               (supplied [("TM2", JStr "T9")] "ICD11" (JStr "MG21"))
               (supplied [("TM2", JStr "T9")] "TM2" (JStr "TM2-210")), 200).
Proof.
  apply (update_then_get_code Indel.ratio "Fever" [("TM2", JStr "T9")]
           (JStr "MG21") (JStr "TM2-210") diseases0).
  - exists [("ICD11", JStr "MG21"); ("TM2", JStr "TM2-210")].
    repeat split; reflexivity.
  - reflexivity.
  - discriminate.
Defined.



Lemma supplied_idem (fields : dict json) (field : string) (old : json) :
  supplied fields field (supplied fields field old) = supplied fields field old.
Proof. unfold supplied. now destruct (dict_get field fields). Qed.

(** X8.  An update is idempotent: sent a second time with the same body, it
    answers the same and leaves the catalog as the first one left it. *)
Theorem update_disease_idempotent (name : string) (data : json)
        (ds : catalog) :
  catalog_ok ds = true ->
  update_disease name data (snd (update_disease name data ds))
  = (fst (update_disease name data ds), snd (update_disease name data ds)).
Proof.
  intros Hok. destruct (dict_get name ds) as [codes|] eqn:Hc.
  - destruct (is_object data) eqn:Hd.
    + destruct data; try discriminate Hd.
      destruct (stored_of_ok ds name codes Hok Hc) as (i & t & Hi & Ht).
      rewrite (update_disease_eq name fields codes i t ds Hc Hi Ht).
      simpl fst. simpl snd.
      set (i' := supplied fields "ICD11" i).
      set (t' := supplied fields "TM2" t).
      set (codes' := dict_set "TM2" t' (dict_set "ICD11" i' codes)).
      assert (Hi' : dict_get "ICD11" codes' = Some i').
      { unfold codes'. rewrite dict_get_set_other by discriminate.
        apply dict_get_set_same. }
      assert (Ht' : dict_get "TM2" codes' = Some t')
        by apply dict_get_set_same.
      rewrite (update_disease_eq name fields codes' i' t'
                 (dict_set name codes' ds) (dict_get_set_same _ _ _) Hi' Ht').
      assert (Ei : supplied fields "ICD11" i' = i') by apply supplied_idem.
      assert (Et : supplied fields "TM2" t' = t') by apply supplied_idem.
      rewrite Ei, Et.
      rewrite (dict_set_same_value "ICD11" i' codes' Hi').
      rewrite (dict_set_same_value "TM2" t' codes' Ht').
      now rewrite dict_set_set.
    + rewrite (update_disease_non_object name data codes ds Hc Hd).
      simpl. exact (update_disease_non_object name data codes ds Hc Hd).
  - rewrite (update_disease_absent name data ds Hc). simpl.
    exact (update_disease_absent name data ds Hc).
Qed.

Lemma update_disease_idempotent_witness :
  update_disease "Asthma" (JObj [("ICD11", JStr "X1")])
    (snd (update_disease "Asthma" (JObj [("ICD11", JStr "X1")]) diseases0))
  = (fst (update_disease "Asthma" (JObj [("ICD11", JStr "X1")]) diseases0),
     snd (update_disease "Asthma" (JObj [("ICD11", JStr "X1")]) diseases0)).
Proof.
  apply (update_disease_idempotent "Asthma" (JObj [("ICD11", JStr "X1")])
           diseases0).
  reflexivity.
Defined.

(** X9.  Updates of two different diseases do not interfere: in either order
    they leave the same catalog. *)
Theorem update_disease_commute (a b : string) (fa fb : dict json)
        (ds : catalog) :
  catalog_ok ds = true ->
  a <> b ->
  dict_mem a ds = true ->
  dict_mem b ds = true ->
  snd (update_disease b (JObj fb) (snd (update_disease a (JObj fa) ds)))
  = snd (update_disease a (JObj fa) (snd (update_disease b (JObj fb) ds))).
Proof.
  intros Hok Hne Ha Hb. unfold dict_mem in Ha, Hb.
  destruct (dict_get a ds) as [ca|] eqn:Hca; [|discriminate].
  destruct (dict_get b ds) as [cb|] eqn:Hcb; [|discriminate].
  destruct (stored_of_ok ds a ca Hok Hca) as (ia & ta & Hia & Hta).
  destruct (stored_of_ok ds b cb Hok Hcb) as (ib & tb & Hib & Htb).
  rewrite (update_disease_eq a fa ca ia ta ds Hca Hia Hta).
  rewrite (update_disease_eq b fb cb ib tb ds Hcb Hib Htb).
  simpl snd.
  rewrite (update_disease_eq b fb cb ib tb _
             (eq_trans (dict_get_set_other a b _ ds (not_eq_sym Hne)) Hcb)
             Hib Htb).
  rewrite (update_disease_eq a fa ca ia ta _
             (eq_trans (dict_get_set_other b a _ ds Hne) Hca) Hia Hta).
  simpl snd. apply dict_set_comm; [now apply not_eq_sym|].
  exact (dict_mem_of_get _ _ _ Hcb).
Qed.

Lemma update_disease_commute_witness :
  snd (update_disease "Fever" (JObj [("TM2", JStr "T9")])
         (snd (update_disease "Asthma" (JObj [("ICD11", JStr "X1")])
                 diseases0)))
  = snd (update_disease "Asthma" (JObj [("ICD11", JStr "X1")])
           (snd (update_disease "Fever" (JObj [("TM2", JStr "T9")])
                   diseases0))).
Proof.
  apply (update_disease_commute "Asthma" "Fever" [("ICD11", JStr "X1")]
           [("TM2", JStr "T9")] diseases0).
  - reflexivity.
  - discriminate.
  - reflexivity.
  - reflexivity.
Defined.

(** X10.  A body that supplies neither code (the empty object, or an object
    with other members only) changes nothing, and is still answered as a
    successful update. *)
Theorem update_disease_without_codes (name : string) (fields : dict json)
        (ds : catalog) :
  catalog_ok ds = true ->
  dict_mem name ds = true ->
  dict_get "ICD11" fields = None ->
  dict_get "TM2" fields = None ->
  update_disease name (JObj fields) ds = (Returns (updated_ok name), ds).
Proof.
  intros Hok Hm Hfi Hft. unfold dict_mem in Hm.
  destruct (dict_get name ds) as [codes|] eqn:Hc; [|discriminate].
  destruct (stored_of_ok ds name codes Hok Hc) as (i & t & Hi & Ht).
  rewrite (update_disease_eq name fields codes i t ds Hc Hi Ht).
  unfold supplied. rewrite Hfi, Hft.
  rewrite (dict_set_same_value "ICD11" i codes Hi).
  rewrite (dict_set_same_value "TM2" t codes Ht).
  f_equal. exact (dict_set_same_value name codes ds Hc).
Qed.

Lemma update_disease_without_codes_witness :
  update_disease "Fever" (JObj [("note", JStr "n/a")]) diseases0
  = (Returns (updated_ok "Fever"), diseases0).
Proof.
  apply (update_disease_without_codes "Fever" [("note", JStr "n/a")] diseases0).
  - reflexivity.
  - reflexivity.
  - reflexivity.
  - reflexivity.
Defined.

(** ** [delete_disease] *)

Lemma delete_disease_state (name : string) (ds : catalog) :
  snd (delete_disease name ds)
  = (if dict_mem name ds then dict_del name ds else ds).
Proof.
  unfold dict_mem. destruct (dict_get name ds) as [codes|] eqn:Hc.
  - now rewrite (delete_disease_present name codes ds Hc).
  - now rewrite (delete_disease_absent name ds Hc).
Qed.

Lemma delete_disease_gone (name : string) (ds : catalog) :
  dict_wf ds -> dict_get name (snd (delete_disease name ds)) = None.
Proof.
  intros Hwf. rewrite delete_disease_state. unfold dict_mem.
  destruct (dict_get name ds) eqn:Hc; [now apply dict_get_del_same | exact Hc].
Qed.

(** X11.  Deleting a disease of the catalog takes out that one item and
    nothing else: the items before and after it stay, in their order, and
    every other name is looked up as before. *)
Theorem delete_disease_removes_one (name : string) (codes : codes_t)
        (ds : catalog) :
  dict_get name ds = Some codes ->
  exists before after,
    ds = before ++ (name, codes) :: after
    /\ delete_disease name ds = (Returns (deleted_ok name), before ++ after)
    /\ (forall other, other <> name ->
                      dict_get other (before ++ after) = dict_get other ds).
Proof.
  intros Hc.
  destruct (dict_del_split name codes ds Hc) as (l1 & l2 & Hds & Hdel & _).
  exists l1, l2. split; [exact Hds|]. split.
  - rewrite (delete_disease_present name codes ds Hc). now rewrite Hdel.
  - intros other Hne. rewrite <- Hdel. now apply dict_get_del_other.
Qed.

Lemma delete_disease_removes_one_witness :
  exists before after,
    diseases0
    = before
        ++ ("Diabetes mellitus",
            [("ICD11", JStr "5A11"); ("TM2", JStr "TM2-101")]) :: after
    /\ delete_disease "Diabetes mellitus" diseases0
       = (Returns (deleted_ok "Diabetes mellitus"), before ++ after)
    /\ (forall other, other <> "Diabetes mellitus" ->
                      dict_get other (before ++ after)
                      = dict_get other diseases0).
Proof.
  apply (delete_disease_removes_one "Diabetes mellitus"
           [("ICD11", JStr "5A11"); ("TM2", JStr "TM2-101")] diseases0).
  reflexivity.
Defined.

(** X12.  Once [delete_disease] has been called for a name, no answer of
    [get_code] shows that name any more, neither as an exact nor as a fuzzy
    match, whatever the query and the scorer. *)
Theorem deleted_never_answered (scorer : string -> string -> Q)
        (name : string) (arg : option string) (ds : catalog)
        (body : json) (status : nat) (icd11 tm2 : json) :
  dict_wf ds ->
  fst (get_code scorer arg (snd (delete_disease name ds)))
  = Returns (body, status) ->
  body <> fhir_condition name icd11 tm2
  /\ body <> fhir_condition_note name icd11 tm2.
Proof.
  intros Hwf H. pose proof (delete_disease_gone name ds Hwf) as Hgone.
  apply get_code_returns in H. cbv zeta in H.
  destruct H as [[_ H] | [(_ & i & t & Hst & H)
                          | [(_ & _ & m & i & t & Hst & _ & H)
                            | (_ & _ & _ & H)]]];
    injection H as -> _.
  - split; discriminate.
  - split; [|discriminate]. intros Hb.
    apply fhir_condition_inj in Hb as (Hm & _ & _).
    destruct Hst as (codes & Hc & _). rewrite Hm in Hc. congruence.
  - split; [discriminate|]. intros Hb.
    apply fhir_condition_note_inj in Hb as (Hm & _ & _).
    destruct Hst as (codes & Hc & _). rewrite Hm in Hc. congruence.
  - split; discriminate.
Qed.

Lemma deleted_never_answered_witness :
  fhir_condition_note "Diabetes mellitus" (JStr "5A11") (JStr "TM2-101")
  <> fhir_condition "Asthma" (JStr "CA23") (JStr "TM2-404")
  /\ fhir_condition_note "Diabetes mellitus" (JStr "5A11") (JStr "TM2-101")
     <> fhir_condition_note "Asthma" (JStr "CA23") (JStr "TM2-404").
Proof.
  apply (deleted_never_answered (fun _ _ => (90 # 1)%Q) "Asthma"
           (Some "Asthma") diseases0
           (fhir_condition_note "Diabetes mellitus" (JStr "5A11") (JStr "TM2-101")) 200
           (JStr "CA23") (JStr "TM2-404")).
  - repeat constructor; simpl; intuition discriminate.
  - reflexivity.
Defined.

(** ** What no request does *)

Lemma stable_names_within (ds0 : catalog) :
  stable (fun ds => incl (dict_keys ds) (dict_keys ds0)).
Proof.
  split.
  - intros k field v codes ds H Hget.
    rewrite dict_keys_set; [assumption | exact (dict_mem_of_get _ _ _ Hget)].
  - intros k ds H. exact (incl_tran (dict_keys_del_incl k ds) H).
Qed.

(** X13.  No request adds a disease: after any sequence of requests, from
    any catalog, every name of the catalog was a name of it before. *)
Theorem names_never_grow (scorer : string -> string -> Q)
        (rs : list request) (ds : catalog) :
  incl (dict_keys (run scorer rs ds)) (dict_keys ds).
Proof.
  apply (run_stable _ (stable_names_within ds)). apply incl_refl.
Qed.

(** X14.  In every catalog the service reaches from its seed, the name of a
    fuzzy answer is the lexicographically first of the names that reach the
    highest score: any other name with the same score comes after it. *)
Theorem reachable_tie_lexicographic (scorer : string -> string -> Q)
        (rs : list request) (query m n : string) (icd11 tm2 : json) :
  let ds := run scorer rs diseases0 in
  fst (get_code scorer (Some query) ds)
  = Returns (fhir_condition_note m icd11 tm2, 200) ->
  In n (dict_keys ds) ->
  (scorer (PyStr.strip query) n == scorer (PyStr.strip query) m)%Q ->
  n = m \/ String.ltb m n = true.
Proof.
  intros ds H Hn Htie.
  assert (Hsorted : names_sorted ds)
    by (apply run_stable; [exact stable_names_sorted | exact diseases0_sorted]).
  assert (H' : get_code scorer (Some query) ds
               = (Returns (fhir_condition_note m icd11 tm2, 200), ds)).
  { rewrite <- H. rewrite <- (get_code_state scorer (Some query) ds) at 3.
    apply surjective_pairing. }
  destruct (get_code_note_inv scorer (Some query) ds m icd11 tm2 H')
    as (score & i & Hres & _).
  simpl args_get in Hres.
  assert (Hne : dict_keys ds <> []) by (intros E; rewrite E in Hn; exact Hn).
  destruct (extractOne_first_best scorer (PyStr.strip query) (dict_keys ds) Hne)
    as (l1 & m' & l2 & Hkeys & Hres' & H1 & _).
  rewrite Hres in Hres'. injection Hres' as <- _ _.
  unfold names_sorted in Hsorted. rewrite Hkeys in Hn, Hsorted.
  apply in_app_or in Hn as [Hn|[Hn|Hn]].
  - rewrite Forall_forall in H1. specialize (H1 n Hn).
    rewrite Htie in H1. exfalso. exact (Qlt_irrefl _ H1).
  - now left.
  - right. apply StronglySorted_after in Hsorted.
    rewrite Forall_forall in Hsorted. now apply Hsorted.
Qed.

Lemma reachable_tie_lexicographic_witness :
  "Fever" = "Diabetes mellitus"
  \/ String.ltb "Diabetes mellitus" "Fever" = true.
Proof.
  apply (reachable_tie_lexicographic (fun _ _ => (90 # 1)%Q)
           [DeleteDisease "Asthma"] "flu" "Diabetes mellitus" "Fever"
           (JStr "5A11") (JStr "TM2-101")).
  - reflexivity.
  - right. left. reflexivity.
  - reflexivity.
Defined.

(** ** [list_diseases] *)

Lemma list_entries_eq (items ds : catalog) :
  catalog_ok items = true ->
  list_entries items ds = (Returns (map bundle_entry items), ds).
Proof.
  unfold catalog_ok.
  induction items as [|[name codes] rest IH]; simpl; [reflexivity|].
  intros H. apply andb_true_iff in H as [Hc Hrest].
  destruct (codes_ok_get codes Hc) as (i & t & Hi & Ht).
  unfold getitem, bind, ret. rewrite Hi, Ht. cbn.
  rewrite (IH Hrest). unfold bundle_entry, supplied. simpl.
  now rewrite Hi, Ht.
Qed.

(** X15.  Over a catalog whose diseases have both codes, [list_diseases]
    never fails: it returns, with status 200, a [Bundle] with one entry per
    disease, in the order of the catalog, each the [Condition] of its disease
    with the stored codes; an empty catalog gives the empty bundle.  The
    catalog is left as it was. *)
Theorem list_diseases_bundle (ds : catalog) :
  catalog_ok ds = true ->
  list_diseases ds = (Returns (bundle (map bundle_entry ds), 200), ds).
Proof.
  intros Hok. unfold list_diseases, get_diseases.
  unfold bind at 1 2. rewrite (list_entries_eq ds ds Hok). reflexivity.
Qed.

Lemma list_diseases_bundle_witness :
  list_diseases [] = (Returns (bundle (map bundle_entry []), 200), [])
  /\ list_diseases diseases0
     = (Returns (bundle (map bundle_entry diseases0), 200), diseases0).
Proof.
  split.
  - apply (list_diseases_bundle []). reflexivity.
  - apply (list_diseases_bundle diseases0). reflexivity.
Defined.

(** X16.  The listing and the lookup agree: for a disease of the catalog
    whose name has no surrounding whitespace, the [Condition] that [get_code]
    returns for the name is the resource of an entry of the bundle of
    [list_diseases]. *)
Theorem list_diseases_agrees_with_get_code (scorer : string -> string -> Q)
        (name : string) (ds : catalog) :
  catalog_ok ds = true ->
  dict_mem name ds = true ->
  PyStr.strip name = name ->
  name <> "" ->
  exists body entries,
    fst (get_code scorer (Some name) ds) = Returns (body, 200)
    /\ fst (list_diseases ds) = Returns (bundle entries, 200)
    /\ In (JObj [("resource", body)]) entries.
Proof.
  intros Hok Hm Hs Hne. unfold dict_mem in Hm.
  destruct (dict_get name ds) as [codes|] eqn:Hc; [|discriminate].
  destruct (stored_of_ok ds name codes Hok Hc) as (i & t & Hi & Ht).
  exists (fhir_condition name i t), (map bundle_entry ds).
  split; [|split].
  - pose proof (get_code_of_stored scorer name i t ds) as G.
    rewrite Hs in G. rewrite G; [reflexivity | assumption |].
    now exists codes.
  - now rewrite (list_diseases_bundle ds Hok).
  - apply in_map_iff. exists (name, codes). split.
    + unfold bundle_entry, supplied. simpl. now rewrite Hi, Ht.
    + now apply dict_get_In.
Qed.

Lemma list_diseases_agrees_with_get_code_witness :
  exists body entries,
    fst (get_code Indel.ratio (Some "Fever") diseases0) = Returns (body, 200)
    /\ fst (list_diseases diseases0) = Returns (bundle entries, 200)
    /\ In (JObj [("resource", body)]) entries.
Proof.
  apply (list_diseases_agrees_with_get_code Indel.ratio "Fever" diseases0).
  - reflexivity.
  - reflexivity.
  - reflexivity.
  - discriminate.
Defined.
